(** * git-sensor: the CLI-driven git manager ([pkg/git/GitCliManager.go])

    A shallow embedding of the command-construction and output-decoding
    engine of [GitCliManagerImpl], and the properties its specification
    states about it.

    Conventions of the embedding.
    - A Go [string] is a byte sequence: Rocq's [string], whose characters are
      the 8-bit [ascii].  Rocq string literals have no escape sequences, so
      the newline and the double quote are written through their codes.
    - A Go slice that may be [nil] is an [option (list _)]: [None] is the nil
      slice, [Some []] the empty slice built by [make(_, 0)].
    - A Go [error] result is an [option error], [None] for [nil]; a function
      with several results returns the tuple of them, so that "a value
      alongside an error" stays expressible.
    - An interface or pointer result that may be [nil] is an [option].
    - Whatever leaves the process (spawning [git], the file system) and the
      helpers of the package declared in other files are fields of [Env];
      every use of one is appended to a trace of [Event]s threaded by the
      monad [M].  Logging is not modelled. *)

From Stdlib Require Import List ZArith Lia Bool Arith DecimalString Ascii String.
Import ListNotations.

Local Open Scope list_scope.
Local Open Scope string_scope.

(* ================================================================= *)
(** ** Go preliminaries *)

Module Go.

(** Characters that a Rocq literal cannot spell directly. *)
Definition TAB : ascii := ascii_of_nat 9.
Definition LF : ascii := ascii_of_nat 10.
Definition DQUOTE : ascii := ascii_of_nat 34.
Definition BACKSLASH : ascii := ascii_of_nat 92.

(** [s != ""]. *)
Definition nonEmpty (s : string) : bool :=
  match s with
  | EmptyString => false
  | String _ _ => true
  end.

(** [len(s)] of a string, in bytes. *)
Definition len (s : string) : nat := String.length s.

(** The slice expression [s[:hi]]. *)
Definition sliceTo (s : string) (hi : nat) : string := substring 0 hi s.

(** [len(xs)] of a slice; the nil slice has length zero. *)
Definition lenSlice {A : Type} (xs : option (list A)) : nat :=
  match xs with
  | None => 0
  | Some l => List.length l
  end.

(** The elements a [for ... range xs] visits; none of the nil slice. *)
Definition elems {A : Type} (xs : option (list A)) : list A :=
  match xs with
  | None => []
  | Some l => l
  end.

(** [xs[0]] under a guard [len(xs) != 0]; [None] stands for the interface
    value that the guard makes unreachable. *)
Definition index0 {A : Type} (xs : option (list A)) : option A :=
  match xs with
  | Some (x :: _) => Some x
  | _ => None
  end.

(** [strconv.Itoa]: the decimal rendering of a (64-bit) [int]. *)
Definition Itoa (n : Z) : string := NilZero.string_of_int (Z.to_int n).

(** Go [error] values, by origin.  [PathError] carries whether
    [os.IsNotExist] holds of it. *)
Inductive error : Type :=
| PathError (op path : string) (notExist : bool)
| SyntaxError (msg : string)
| UnmarshalTypeError (value field : string)
| ExitError (msg : string)
| OtherError (msg : string).

(** [err != nil]. *)
Definition isErr (err : option error) : bool :=
  match err with
  | Some _ => true
  | None => false
  end.

(** [os.IsNotExist(err)]; false of the nil error. *)
Definition IsNotExist (err : option error) : bool :=
  match err with
  | Some (PathError _ _ true) => true
  | _ => false
  end.

End Go.
Import Go.

(* ================================================================= *)
(** ** Data model *)

(** [context.Context]: an opaque handle. *)
Inductive Context : Type := ContextId (id : nat).

(** Modelled from the spec: [GitContext] is declared outside this file; the
    spec gives "a cancellable execution context plus optional
    credential/auth material".  Only the [Context] field is read here. *)
Record GitContext : Type := mkGitContext {
  gcContext : Context;
  gcAuth : option (string * string)
}.

(** Modelled from the spec: [GitCommitFormat] and its [Commiter] are declared
    outside this file; their fields are read at lines 169-172 and their JSON
    names are those of the commit query output format,
    [{commit, commiter:{name,email,date}, subject, body}].  Field names can
    be used once in Rocq: [fCommit] and [fCommiter] are the fields [Commit]
    and [Commiter] of [GitCommitFormat]. *)
Record Commiter : Type := mkCommiter {
  Name : string;
  Email : string;
  Date : string
}.

Record GitCommitFormat : Type := mkGitCommitFormat {
  fCommit : string;
  fCommiter : Commiter;
  Subject : string;
  Body : string
}.

(** Modelled from the spec: [GitCommitBase] is declared outside this file;
    these are the five fields the decoder assigns (lines 168-174), with
    [CommitDate] for its field [Date]. *)
Record GitCommitBase : Type := mkGitCommitBase {
  Commit : string;
  Author : string;
  CommitDate : string;
  Message : string;
  CheckoutPath : string
}.

(** The [GitCommit] interface; this file builds its [*GitCommitCli]
    implementation, which embeds a [GitCommitBase]. *)
Inductive GitCommit : Type :=
| GitCommitCli (base : GitCommitBase).

(** [commit.GetCommit()]. *)
Definition GetCommit (c : GitCommit) : GitCommitBase :=
  match c with
  | GitCommitCli base => base
  end.

Record GitRepository : Type := mkGitRepository {
  rootDir : string
}.

(** [CommitCliIterator], as built at lines 75-77. *)
Record CommitCliIterator : Type := mkCommitCliIterator {
  commits : option (list GitCommit)
}.

(** Modelled from the spec: [IteratorRequest] is declared outside this file. *)
Record IteratorRequest : Type := mkIteratorRequest {
  BranchRef : string;
  Branch : string;
  CommitCount : Z;
  FromCommitHash : string;
  ToCommitHash : string
}.

(** Modelled from the spec: [FileStats] is declared outside this file:
    "mapping from file path to a change-count record
    [{additions, deletions}] (or a binary-file marker)". *)
Inductive ChangeCount : Type :=
| Counts (additions deletions : Z)
| BinaryFile.

Definition FileStats : Type := option (list (string * ChangeCount)).

(** [exec.Cmd], as built by [exec.CommandContext(ctx, name, args...)]. *)
Record Cmd : Type := mkCmd {
  cmdCtx : Context;
  cmdName : string;
  cmdArgs : list string
}.

Definition CommandContext (ctx : Context) (name : string) (args : list string) : Cmd :=
  mkCmd ctx name args.

(* ================================================================= *)
(** ** The environment and the monad of external interactions *)

(** What this file calls and does not define. *)
Record Env : Type := mkEnv {
  (** [json.Unmarshal(data, &v)] on a nil [[]GitCommitFormat]: the slice left
      in [v], and the error. *)
  json_Unmarshal : string -> option (list GitCommitFormat) * option error;
  (** [impl.runCommand(cmd)]: output, error message, error. *)
  runCommand : Cmd -> string * string * option error;
  (** [filepath.Abs(path)]. *)
  filepath_Abs : string -> string * option error;
  (** [osfs.New(path).Stat(name)]: only its error is inspected. *)
  osfs_Stat : string -> string -> option error;
  (** [impl.FetchDiffStatBetweenCommits(gitContext, oldHash, newHash, rootDir)]:
      output, error message, error. *)
  FetchDiffStatBetweenCommits :
    GitContext -> string -> string -> string -> string * string * option error;
  (** [getFileStat(fileStat)]. *)
  getFileStat : string -> FileStats * option error
}.

(** One entry per interaction with the outside. *)
Inductive Event : Type :=
| EvAbs (path : string)
| EvStat (dir name : string)
| EvRun (cmd : Cmd)
| EvDiffStat (gitContext : GitContext) (revisionA revisionB checkoutPath : string).

Definition Trace : Type := list Event.

Definition M (A : Type) : Type := Trace -> A * Trace.

Definition ret {A : Type} (a : A) : M A := fun t => (a, t).

Definition bind {A B : Type} (m : M A) (k : A -> M B) : M B :=
  fun t => let (a, t') := m t in k a t'.

Definition emit (e : Event) : M unit := fun t => (tt, (t ++ [e])%list).

Notation "x <- m ;; k" := (bind m (fun x => k))
  (at level 61, m at next level, right associativity).
Notation "m ;;; k" := (bind m (fun _ => k))
  (at level 61, right associativity).

(** Run from the empty trace. *)
Definition run {A : Type} (m : M A) : A * Trace := m [].
Definition result {A : Type} (m : M A) : A := fst (run m).
Definition trace {A : Type} (m : M A) : Trace := snd (run m).

Section Manager.

Variable env : Env.

Definition doRunCommand (cmd : Cmd) : M (string * string * option error) :=
  emit (EvRun cmd) ;;; ret (runCommand env cmd).

Definition doAbs (path : string) : M (string * option error) :=
  emit (EvAbs path) ;;; ret (filepath_Abs env path).

Definition doStat (dir name : string) : M (option error) :=
  emit (EvStat dir name) ;;; ret (osfs_Stat env dir name).

Definition doFetchDiffStat (gitContext : GitContext) (a b path : string)
  : M (string * string * option error) :=
  emit (EvDiffStat gitContext a b path) ;;;
  ret (FetchDiffStatBetweenCommits env gitContext a b path).

(** The constant [GITFORMAT], the per-commit output template of the query,
    is declared outside this file: a parameter. *)
Variable GITFORMAT : string.

(* =============================================================== *)
(** ** The functions of [GitCliManager.go] *)

(** Lines 80-90. *)
Definition openGitRepo (path : string) : M (option error) :=
  r <- doAbs path ;;
  match snd r with
  | Some err => ret (Some err)
  | None =>
      err <- doStat path ".git" ;;
      if negb (IsNotExist err) then ret err
      else ret None
  end.

(** Lines 49-58. *)
Definition OpenRepoPlain (checkoutPath : string) : M (option GitRepository * option error) :=
  err <- openGitRepo checkoutPath ;;
  match err with
  | Some e => ret (None, Some e)
  | None => ret (Some (mkGitRepository checkoutPath), None)
  end.

(** Lines 127-136. *)
Definition getCommandForLogRange (branchRef from to : string)
    (rangeCmdArgs baseCmdArgs extraCmdArgs : list string) : list string :=
  let rangeCmdArgs :=
    if nonEmpty from && nonEmpty to then [from ++ "^.." ++ to]
    else if nonEmpty from then [from ++ "^.." ++ branchRef]
    else if nonEmpty to then [to]
    else rangeCmdArgs in
  (baseCmdArgs ++ (rangeCmdArgs ++ extraCmdArgs))%list.

(** Lines 151-180. *)
Definition processGitLogOutput (out : string) (rootDir : string)
  : option (list GitCommit) * option error :=
  if Nat.eqb (len out) 0 then (Some [], None)
  else
    let logOut := out in
    let logOut := sliceTo logOut (len logOut - 1) in
    let logOut := "[" ++ logOut ++ "]" in
    let (gitCommitFormattedList, err) := json_Unmarshal env logOut in
    match err with
    | Some e => (None, Some e)
    | None =>
        let gitCommits :=
          fold_left
            (fun gitCommits formattedCommit =>
               let cm := {|
                 Commit := fCommit formattedCommit;
                 Author := Name (fCommiter formattedCommit) ++ " <"
                           ++ Email (fCommiter formattedCommit) ++ ">";
                 CommitDate := Date (fCommiter formattedCommit);
                 Message := Subject formattedCommit ++ String LF ""
                            ++ Body formattedCommit;
                 CheckoutPath := rootDir |} in
               (gitCommits ++ [GitCommitCli cm])%list)
            (elems gitCommitFormattedList)
            [] in
        (Some gitCommits, None)
    end.

(** Lines 107-125. *)
Definition GetCommits (gitContext : GitContext) (branchRef branch rootDir : string)
    (numCommits : Z) (from to : string) : M (option (list GitCommit) * option error) :=
  let baseCmdArgs := ["-C"; rootDir; "log"] in
  let rangeCmdArgs := [branchRef] in
  let extraCmdArgs := ["-n"; Itoa numCommits; "--date=iso-strict"; GITFORMAT] in
  let cmdArgs :=
    getCommandForLogRange branchRef from to rangeCmdArgs baseCmdArgs extraCmdArgs in
  let cmd := CommandContext (gcContext gitContext) "git" cmdArgs in
  r <- doRunCommand cmd ;;
  let '(output, errMsg, err) := r in
  match err with
  | Some e => ret (None, Some e)
  | None =>
      let (commits, err) := processGitLogOutput output rootDir in
      match err with
      | Some e => ret (None, Some e)
      | None => ret (commits, None)
      end
  end.

(** Lines 68-78. *)
Definition GetCommitIterator (gitContext : GitContext) (repository : GitRepository)
    (iteratorRequest : IteratorRequest) : M (option CommitCliIterator * option error) :=
  r <- GetCommits gitContext (BranchRef iteratorRequest) (Branch iteratorRequest)
         (rootDir repository) (CommitCount iteratorRequest)
         (FromCommitHash iteratorRequest) (ToCommitHash iteratorRequest) ;;
  let (commits, err) := r in
  match err with
  | Some e => ret (None, Some e)
  | None => ret (Some (mkCommitCliIterator commits), None)
  end.

(** Lines 138-149.  The error of [runCommand] is overwritten by the
    [commits, err :=] of line 143 before it is read. *)
Definition GitShow (gitContext : GitContext) (rootDir hash : string)
  : M (option GitCommit * option error) :=
  let cmd := CommandContext (gcContext gitContext) "git"
               ["-C"; rootDir; "show"; hash; "--date=iso-strict"; GITFORMAT; "-s"] in
  r <- doRunCommand cmd ;;
  let '(output, errMsg, err) := r in
  let (commits, err) := processGitLogOutput output rootDir in
  if isErr err || Nat.eqb (lenSlice commits) 0 then ret (None, err)
  else ret (index0 commits, None).

(** Lines 60-62. *)
Definition GetCommitsForTag (gitContext : GitContext) (checkoutPath tag : string) :=
  GitShow gitContext checkoutPath tag.

(** Lines 64-67. *)
Definition GetCommitForHash (gitContext : GitContext) (checkoutPath commitHash : string) :=
  GitShow gitContext checkoutPath commitHash.

(** Lines 182-190. *)
Definition GetCommitStats (gitContext : GitContext) (commit : GitCommit)
  : M (FileStats * option error) :=
  let gitCommit := GetCommit commit in
  r <- doFetchDiffStat gitContext (Commit gitCommit) "" (CheckoutPath gitCommit) ;;
  let '(fileStat, errorMsg, err) := r in
  match err with
  | Some e => ret (None, Some e)
  | None => ret (getFileStat env fileStat)
  end.

End Manager.

(* ================================================================= *)
(** ** The words of the specification *)

(** Section 4.2, steps 2 and 3: the raw text without its final character,
    wrapped in array brackets. *)
Definition repaired (out : string) : string :=
  "[" ++ sliceTo out (len out - 1) ++ "]".

(** Section 4.2, step 5: the Commit of a parsed fragment. *)
Definition commitOfFragment (rootDir : string) (f : GitCommitFormat) : GitCommit :=
  GitCommitCli {|
    Commit := fCommit f;
    Author := Name (fCommiter f) ++ " <" ++ Email (fCommiter f) ++ ">";
    CommitDate := Date (fCommiter f);
    Message := Subject f ++ String LF "" ++ Body f;
    CheckoutPath := rootDir |}.

(** Section 4.1: the precedence table of the range resolver. *)
Definition resolveRange (branchRef from to : string) : string :=
  match from, to with
  | String _ _, String _ _ => from ++ "^.." ++ to
  | String _ _, EmptyString => from ++ "^.." ++ branchRef
  | EmptyString, String _ _ => to
  | EmptyString, EmptyString => branchRef
  end.

(** An operation fails when its error result is not nil. *)
Definition fails {A : Type} (r : A * option error) : Prop :=
  exists e, snd r = Some e.

(** The command line of the single-commit show query (line 140). *)
Definition showCmd (GITFORMAT : string) (gitContext : GitContext)
    (rootDir hash : string) : Cmd :=
  CommandContext (gcContext gitContext) "git"
    ["-C"; rootDir; "show"; hash; "--date=iso-strict"; GITFORMAT; "-s"].

(* ================================================================= *)
(** ** Bracket nesting of a text

    The one property of [json.Unmarshal] that the decoder's repair step
    depends on: a text it accepts has its brackets and braces, outside string
    literals, closed as often as opened. *)

Inductive LexMode : Type := Outside | InString | Escaped.

Definition isOpen (c : ascii) : bool := Ascii.eqb c "{" || Ascii.eqb c "[".
Definition isClose (c : ascii) : bool := Ascii.eqb c "}" || Ascii.eqb c "]".

Definition nestStep (st : LexMode * Z) (c : ascii) : LexMode * Z :=
  let (m, d) := st in
  match m with
  | Outside =>
      if Ascii.eqb c DQUOTE then (InString, d)
      else if isOpen c then (Outside, (d + 1)%Z)
      else if isClose c then (Outside, (d - 1)%Z)
      else (Outside, d)
  | InString =>
      if Ascii.eqb c DQUOTE then (Outside, d)
      else if Ascii.eqb c BACKSLASH then (Escaped, d)
      else (InString, d)
  | Escaped => (InString, d)
  end.

(** Characters that leave the state outside a literal as it is. *)
Definition neutral (c : ascii) : bool :=
  negb (Ascii.eqb c DQUOTE) && negb (isOpen c) && negb (isClose c).

Fixpoint nestScan (st : LexMode * Z) (s : string) : LexMode * Z :=
  match s with
  | EmptyString => st
  | String c r => nestScan (nestStep st c) r
  end.

Definition wellNested (s : string) : Prop :=
  nestScan (Outside, 0%Z) s = (Outside, 0%Z).

(* ================================================================= *)
(** ** A reference decoder for the commit query output

    [encoding/json] is not part of the repository: the theorems below hold
    of any [json_Unmarshal].  This module is the decoder the worked examples
    run on: JSON texts by the grammar of RFC 8259, stored into a
    [[]GitCommitFormat] the way [json.Unmarshal] does (keys matched to field
    names without regard to ASCII case, unknown keys skipped, [null] leaving
    a field as it is, the first type mismatch reported once the whole text
    is stored).  The replacement of invalid UTF-8 inside string literals is
    left out. *)

Module Json.

#[warnings="-register-all"] Inductive value : Type :=
| Null
| Bool (b : bool)
| Number (lit : string)
| Str (s : string)
| Arr (elems : list value)
| Obj (members : list (string * value)).

Definition isSpace (c : ascii) : bool :=
  Ascii.eqb c " " || Ascii.eqb c (ascii_of_nat 9)
  || Ascii.eqb c (ascii_of_nat 10) || Ascii.eqb c (ascii_of_nat 13).

Fixpoint skipSpace (s : string) : string :=
  match s with
  | String c r => if isSpace c then skipSpace r else s
  | EmptyString => s
  end.

Definition isDigit (c : ascii) : bool :=
  (48 <=? N_of_ascii c)%N && (N_of_ascii c <=? 57)%N.

Definition hexVal (c : ascii) : option N :=
  let n := N_of_ascii c in
  if (48 <=? n)%N && (n <=? 57)%N then Some (n - 48)%N
  else if (97 <=? n)%N && (n <=? 102)%N then Some (n - 87)%N
  else if (65 <=? n)%N && (n <=? 70)%N then Some (n - 55)%N
  else None.

(** Pieces of a string literal: a byte taken as it is, or the 16-bit unit
    of a [\uXXXX] escape. *)
Inductive piece : Type :=
| Raw (c : ascii)
| Unit16 (n : N).

Definition simpleEscape (c : ascii) : option ascii :=
  if Ascii.eqb c DQUOTE then Some DQUOTE
  else if Ascii.eqb c BACKSLASH then Some BACKSLASH
  else if Ascii.eqb c "/" then Some "/"%char
  else if Ascii.eqb c "b" then Some (ascii_of_nat 8)
  else if Ascii.eqb c "f" then Some (ascii_of_nat 12)
  else if Ascii.eqb c "n" then Some (ascii_of_nat 10)
  else if Ascii.eqb c "r" then Some (ascii_of_nat 13)
  else if Ascii.eqb c "t" then Some (ascii_of_nat 9)
  else None.

(** The text after an opening quote, up to and including the closing one:
    the pieces of the literal and the text after it. *)
Fixpoint stringBody (s : string) : option (list piece * string) :=
  match s with
  | EmptyString => None
  | String c r =>
      if Ascii.eqb c DQUOTE then Some ([], r)
      else if Ascii.eqb c BACKSLASH then
        match r with
        | EmptyString => None
        | String e r1 =>
            if Ascii.eqb e "u" then
              match r1 with
              | String h1 (String h2 (String h3 (String h4 r2))) =>
                  match hexVal h1, hexVal h2, hexVal h3, hexVal h4 with
                  | Some a, Some b, Some c', Some d =>
                      match stringBody r2 with
                      | Some (ps, rest) =>
                          Some (Unit16 (a * 4096 + b * 256 + c' * 16 + d)%N :: ps, rest)
                      | None => None
                      end
                  | _, _, _, _ => None
                  end
              | _ => None
              end
            else
              match simpleEscape e with
              | Some x =>
                  match stringBody r1 with
                  | Some (ps, rest) => Some (Raw x :: ps, rest)
                  | None => None
                  end
              | None => None
              end
        end
      else if (N_of_ascii c <? 32)%N then None
      else
        match stringBody r with
        | Some (ps, rest) => Some (Raw c :: ps, rest)
        | None => None
        end
  end.

Definition byte (n : N) : string := String (ascii_of_N n) "".

(** UTF-8 of a code point. *)
Definition utf8 (r : N) : string :=
  if (r <? 128)%N then byte r
  else if (r <? 2048)%N then
    byte (192 + r / 64) ++ byte (128 + r mod 64)
  else if (r <? 65536)%N then
    byte (224 + r / 4096) ++ byte (128 + (r / 64) mod 64) ++ byte (128 + r mod 64)
  else
    byte (240 + r / 262144) ++ byte (128 + (r / 4096) mod 64)
    ++ byte (128 + (r / 64) mod 64) ++ byte (128 + r mod 64).

Definition isHighSurrogate (n : N) : bool := (55296 <=? n)%N && (n <? 56320)%N.
Definition isLowSurrogate (n : N) : bool := (56320 <=? n)%N && (n <? 57344)%N.

(** U+FFFD, which stands for a surrogate without its pair. *)
Definition replacementChar : N := 65533%N.

Fixpoint unquote (ps : list piece) : string :=
  match ps with
  | [] => ""
  | Raw c :: tl => String c (unquote tl)
  | Unit16 n :: tl =>
      if isHighSurrogate n then
        match tl with
        | Unit16 m :: tl' =>
            if isLowSurrogate m
            then utf8 (65536 + (n - 55296) * 1024 + (m - 56320))%N ++ unquote tl'
            else utf8 replacementChar ++ unquote tl
        | _ => utf8 replacementChar ++ unquote tl
        end
      else if isLowSurrogate n then utf8 replacementChar ++ unquote tl
      else utf8 n ++ unquote tl
  end.

Fixpoint skipDigits (s : string) : string :=
  match s with
  | String c r => if isDigit c then skipDigits r else s
  | EmptyString => s
  end.

(** One digit at least. *)
Definition digits1 (s : string) : option string :=
  match s with
  | String c r => if isDigit c then Some (skipDigits r) else None
  | EmptyString => None
  end.

(** The parts of a number literal, each giving the text after it: an
    optional minus sign; a zero, or a non-zero digit and any digits;
    optionally a dot and one digit or more; optionally [e] or [E], an
    optional sign and one digit or more. *)
Definition optMinus (s : string) : string :=
  match s with
  | String c r => if Ascii.eqb c "-" then r else s
  | EmptyString => s
  end.

Definition intPart (s : string) : option string :=
  match s with
  | String c r =>
      if Ascii.eqb c "0" then Some r
      else if isDigit c then Some (skipDigits r)
      else None
  | EmptyString => None
  end.

Definition fracPart (s : string) : option string :=
  match s with
  | String c r => if Ascii.eqb c "." then digits1 r else Some s
  | EmptyString => Some s
  end.

Definition optSign (s : string) : string :=
  match s with
  | String c r => if Ascii.eqb c "+" || Ascii.eqb c "-" then r else s
  | EmptyString => s
  end.

Definition expPart (s : string) : option string :=
  match s with
  | String c r =>
      if Ascii.eqb c "e" || Ascii.eqb c "E" then digits1 (optSign r)
      else Some s
  | EmptyString => Some s
  end.

Definition numberRest (s : string) : option string :=
  match intPart (optMinus s) with
  | None => None
  | Some s2 =>
      match fracPart s2 with
      | None => None
      | Some s3 => expPart s3
      end
  end.

(** [s] minus its prefix [p], when [p] is one. *)
Fixpoint stripPrefix (p s : string) : option string :=
  match p, s with
  | EmptyString, _ => Some s
  | String a p', String b s' => if Ascii.eqb a b then stripPrefix p' s' else None
  | String _ _, EmptyString => None
  end.

(** The first [length s - length rest] characters of [s]. *)
Definition consumed (s rest : string) : string :=
  substring 0 (String.length s - String.length rest) s.

Fixpoint parseValue (fuel : nat) (s : string) {struct fuel} : option (value * string) :=
  match fuel with
  | O => None
  | S fuel' =>
      match skipSpace s with
      | EmptyString => None
      | String c r =>
          if Ascii.eqb c "{" then
            match skipSpace r with
            | String c' r' =>
                if Ascii.eqb c' "}" then Some (Obj [], r')
                else
                  match parseMembers fuel' r with
                  | Some (ms, rest) => Some (Obj ms, rest)
                  | None => None
                  end
            | EmptyString => None
            end
          else if Ascii.eqb c "[" then
            match skipSpace r with
            | String c' r' =>
                if Ascii.eqb c' "]" then Some (Arr [], r')
                else
                  match parseElements fuel' r with
                  | Some (vs, rest) => Some (Arr vs, rest)
                  | None => None
                  end
            | EmptyString => None
            end
          else if Ascii.eqb c DQUOTE then
            match stringBody r with
            | Some (ps, rest) => Some (Str (unquote ps), rest)
            | None => None
            end
          else if Ascii.eqb c "t" then
            match stripPrefix "rue" r with
            | Some rest => Some (Bool true, rest)
            | None => None
            end
          else if Ascii.eqb c "f" then
            match stripPrefix "alse" r with
            | Some rest => Some (Bool false, rest)
            | None => None
            end
          else if Ascii.eqb c "n" then
            match stripPrefix "ull" r with
            | Some rest => Some (Null, rest)
            | None => None
            end
          else
            match numberRest (String c r) with
            | Some rest => Some (Number (consumed (String c r) rest), rest)
            | None => None
            end
      end
  end
with parseElements (fuel : nat) (s : string) {struct fuel} : option (list value * string) :=
  match fuel with
  | O => None
  | S fuel' =>
      match parseValue fuel' s with
      | None => None
      | Some (v, r) =>
          match skipSpace r with
          | String c r' =>
              if Ascii.eqb c "," then
                match parseElements fuel' r' with
                | Some (vs, rest) => Some (v :: vs, rest)
                | None => None
                end
              else if Ascii.eqb c "]" then Some ([v], r')
              else None
          | EmptyString => None
          end
      end
  end
with parseMembers (fuel : nat) (s : string) {struct fuel}
  : option (list (string * value) * string) :=
  match fuel with
  | O => None
  | S fuel' =>
      match skipSpace s with
      | EmptyString => None
      | String q r =>
          if Ascii.eqb q DQUOTE then
            match stringBody r with
            | None => None
            | Some (ps, r1) =>
                match skipSpace r1 with
                | EmptyString => None
                | String c r2 =>
                    if Ascii.eqb c ":" then
                      match parseValue fuel' r2 with
                      | None => None
                      | Some (v, r3) =>
                          match skipSpace r3 with
                          | EmptyString => None
                          | String c' r4 =>
                              if Ascii.eqb c' "," then
                                match parseMembers fuel' r4 with
                                | Some (ms, rest) => Some ((unquote ps, v) :: ms, rest)
                                | None => None
                                end
                              else if Ascii.eqb c' "}" then Some ([(unquote ps, v)], r4)
                              else None
                          end
                      end
                    else None
                end
            end
          else None
      end
  end.

(** A whole text: one value, and white space around it. *)
Definition parse (s : string) : option value :=
  match parseValue (2 * String.length s + 2) s with
  | Some (v, rest) =>
      match skipSpace rest with
      | EmptyString => Some v
      | String _ _ => None
      end
  | None => None
  end.

(** The name [json.UnmarshalTypeError] gives to the kind of a value. *)
Definition kindName (v : value) : string :=
  match v with
  | Null => "null"
  | Bool _ => "bool"
  | Number _ => "number"
  | Str _ => "string"
  | Arr _ => "array"
  | Obj _ => "object"
  end.

(** The decoder keeps the first error it saved. *)
Definition firstError (e1 e2 : option error) : option error :=
  match e1 with
  | Some _ => e1
  | None => e2
  end.

Definition toLower (c : ascii) : ascii :=
  let n := N_of_ascii c in
  if (65 <=? n)%N && (n <=? 90)%N then ascii_of_N (n + 32) else c.

(** Equality of a key and a field name without regard to ASCII case. *)
Fixpoint equalFold (a b : string) : bool :=
  match a, b with
  | EmptyString, EmptyString => true
  | String x a', String y b' => Ascii.eqb (toLower x) (toLower y) && equalFold a' b'
  | _, _ => false
  end.

(** A value stored into a field of type [string]. *)
Definition storeString (field : string) (v : value) (old : string)
  : string * option error :=
  match v with
  | Str s => (s, None)
  | Null => (old, None)
  | _ => (old, Some (UnmarshalTypeError (kindName v) field))
  end.

(** The members of an object stored into a [Commiter], in their order. *)
Fixpoint storeCommiter (ms : list (string * value)) (c : Commiter)
  : Commiter * option error :=
  match ms with
  | [] => (c, None)
  | (k, v) :: tl =>
      let (c1, e1) :=
        if equalFold k "name" then
          let (x, e) := storeString "commiter.name" v (Name c) in
          (mkCommiter x (Email c) (Date c), e)
        else if equalFold k "email" then
          let (x, e) := storeString "commiter.email" v (Email c) in
          (mkCommiter (Name c) x (Date c), e)
        else if equalFold k "date" then
          let (x, e) := storeString "commiter.date" v (Date c) in
          (mkCommiter (Name c) (Email c) x, e)
        else (c, None) in
      let (c2, e2) := storeCommiter tl c1 in
      (c2, firstError e1 e2)
  end.

(** The members of an object stored into a [GitCommitFormat]. *)
Fixpoint storeCommit (ms : list (string * value)) (g : GitCommitFormat)
  : GitCommitFormat * option error :=
  match ms with
  | [] => (g, None)
  | (k, v) :: tl =>
      let (g1, e1) :=
        if equalFold k "commit" then
          let (x, e) := storeString "commit" v (fCommit g) in
          (mkGitCommitFormat x (fCommiter g) (Subject g) (Body g), e)
        else if equalFold k "commiter" then
          match v with
          | Obj cs =>
              let (x, e) := storeCommiter cs (fCommiter g) in
              (mkGitCommitFormat (fCommit g) x (Subject g) (Body g), e)
          | Null => (g, None)
          | _ => (g, Some (UnmarshalTypeError (kindName v) "commiter"))
          end
        else if equalFold k "subject" then
          let (x, e) := storeString "subject" v (Subject g) in
          (mkGitCommitFormat (fCommit g) (fCommiter g) x (Body g), e)
        else if equalFold k "body" then
          let (x, e) := storeString "body" v (Body g) in
          (mkGitCommitFormat (fCommit g) (fCommiter g) (Subject g) x, e)
        else (g, None) in
      let (g2, e2) := storeCommit tl g1 in
      (g2, firstError e1 e2)
  end.

(** The zero value of [GitCommitFormat]. *)
Definition zeroCommit : GitCommitFormat :=
  mkGitCommitFormat "" (mkCommiter "" "" "") "" "".

(** One element of the array stored into a fresh element of the slice. *)
Definition storeElement (v : value) : GitCommitFormat * option error :=
  match v with
  | Obj ms => storeCommit ms zeroCommit
  | Null => (zeroCommit, None)
  | _ => (zeroCommit, Some (UnmarshalTypeError (kindName v) ""))
  end.

Fixpoint storeElements (vs : list value) : list GitCommitFormat * option error :=
  match vs with
  | [] => ([], None)
  | v :: tl =>
      let (g, e1) := storeElement v in
      let (gs, e2) := storeElements tl in
      (g :: gs, firstError e1 e2)
  end.

(** [json.Unmarshal(data, &v)] for a nil [v] of type [[]GitCommitFormat]. *)
Definition Unmarshal (data : string) : option (list GitCommitFormat) * option error :=
  match parse data with
  | None => (None, Some (SyntaxError "invalid JSON text"))
  | Some (Arr vs) =>
      let (gs, e) := storeElements vs in (Some gs, e)
  | Some Null => (None, None)
  | Some v => (None, Some (UnmarshalTypeError (kindName v) ""))
  end.

End Json.

(* ================================================================= *)
(** ** A worked environment *)

(** JSON texts are written with apostrophes in place of double quotes. *)
Fixpoint jsonText (s : string) : string :=
  match s with
  | EmptyString => EmptyString
  | String c r => String (if Ascii.eqb c "'" then DQUOTE else c) (jsonText r)
  end.

Module Example.

(** The output template of the commit query output format of the spec. *)
Definition GITFORMAT : string :=
  jsonText ("--pretty=format:{'commit':'%H','commiter':{'name':'%cN',"
            ++ "'email':'%cE','date':'%cd'},'subject':'%s','body':'%b'},").

(** A fragment up to its closing brace, and the whole of it. *)
Definition fragmentAOpen : string :=
  jsonText ("{'commit':'a1b2c3','commiter':{'name':'Ada','email':'ada@example.org',"
            ++ "'date':'2023-04-05T06:07:08+05:30'},'subject':'Fix parser','body':'Details.'").

Definition fragmentA : string := fragmentAOpen ++ "}".

Definition fragmentB : string :=
  jsonText ("{'commit':'d4e5f6','commiter':{'name':'Bob','email':'bob@example.org',"
            ++ "'date':'2023-04-04T10:00:00Z'},'subject':'Add tests','body':''}").

Definition parsedA : GitCommitFormat :=
  mkGitCommitFormat "a1b2c3"
    (mkCommiter "Ada" "ada@example.org" "2023-04-05T06:07:08+05:30")
    "Fix parser" "Details.".

Definition parsedB : GitCommitFormat :=
  mkGitCommitFormat "d4e5f6"
    (mkCommiter "Bob" "bob@example.org" "2023-04-04T10:00:00Z")
    "Add tests" "".

(** The output of a history query over the two commits. *)
Definition logOutput : string := fragmentA ++ "," ++ fragmentB ++ ",".

(** An output whose second fragment has a number where the hash belongs. *)
Definition mistyped : string :=
  jsonText "{'commit':'a1b2c3'},{'commit':5},".

Definition commitA : GitCommit :=
  GitCommitCli (mkGitCommitBase "a1b2c3" "Ada <ada@example.org>"
                  "2023-04-05T06:07:08+05:30"
                  ("Fix parser" ++ String LF "Details.") "/repo").

Definition ctx : GitContext := mkGitContext (ContextId 0) None.

(** A checkout [/repo] whose history is [fragmentA] and then [fragmentB];
    [git show] of the ref [v1] prints both (an annotated tag shown with its
    commit would), of any other ref prints nothing; [/repo/.git] is
    reported absent and [/locked/.git] unreadable. *)
Definition exRunCommand (cmd : Cmd) : string * string * option error :=
  match cmdArgs cmd with
  | [_; _; "log"; _; _; _; _; _] => (logOutput, "", None)
  | [_; _; "show"; "v1"; _; _; _] => (logOutput, "", None)
  | [_; _; "show"; "a1b2c3"; _; _; _] => (fragmentA ++ ",", "", None)
  | _ => ("", "", None)
  end.

Definition exAbs (path : string) : string * option error := (path, None).

Definition exStat (dir name : string) : option error :=
  if String.eqb dir "/repo" then Some (PathError "stat" "/repo/.git" true)
  else if String.eqb dir "/locked" then Some (PathError "stat" "/locked/.git" false)
  else None.

Definition diffStatLine : string :=
  "3" ++ String TAB "1" ++ String TAB "src/main.go".

Definition exFetchDiffStat (gitContext : GitContext)
    (oldHash newHash rootDir : string) : string * string * option error :=
  if String.eqb oldHash "a1b2c3" then (diffStatLine, "", None)
  else ("", "fatal: bad revision", Some (ExitError "exit status 128")).

Definition exGetFileStat (fileStat : string) : FileStats * option error :=
  if String.eqb fileStat "" then (Some [], None)
  else (Some [("src/main.go", Counts 3 1)], None).

Definition env : Env :=
  mkEnv Json.Unmarshal exRunCommand exAbs exStat exFetchDiffStat exGetFileStat.

End Example.

(* ================================================================= *)
(** ** Setting up a checkout

    [Init] and the two commands it runs.  [os.MkdirAll] is the one call of
    the file that is neither a [git] command nor a probe of [Env]: it is a
    parameter of the section, and its uses are recorded next to the events
    of the commands. *)

Inductive IOEvent : Type :=
| IoMkdirAll (path : string) (perm : Z)
| IoGit (e : Event).

Definition MI (A : Type) : Type := list IOEvent -> A * list IOEvent.

Definition retI {A : Type} (a : A) : MI A := fun t => (a, t).

Definition bindI {A B : Type} (m : MI A) (k : A -> MI B) : MI B :=
  fun t => let (a, t') := m t in k a t'.

(** A computation of [M] inside [MI]: its events, in their order. *)
Definition liftGit {A : Type} (m : M A) : MI A :=
  fun t => let (a, tr) := run m in (a, (t ++ map IoGit tr)%list).

Definition runI {A : Type} (m : MI A) : A * list IOEvent := m [].

(** The permission bits [0755]. *)
Definition perm0755 : Z := 493.

Section Setup.

Variable env : Env.

(** [os.MkdirAll(path, perm)]. *)
Variable os_MkdirAll : string -> Z -> option error.

Definition doMkdirAll (path : string) (perm : Z) : MI (option error) :=
  fun t => (os_MkdirAll path perm, (t ++ [IoMkdirAll path perm])%list).

(** Lines 91-97. *)
Definition GitInit (gitContext : GitContext) (rootDir : string) : M (option error) :=
  let cmd := CommandContext (gcContext gitContext) "git" ["-C"; rootDir; "init"] in
  r <- doRunCommand env cmd ;;
  let '(output, errMsg, err) := r in
  ret err.

(** Lines 99-105. *)
Definition GitCreateRemote (gitContext : GitContext) (rootDir url : string)
  : M (option error) :=
  let cmd := CommandContext (gcContext gitContext) "git"
               ["-C"; rootDir; "remote"; "add"; "origin"; url] in
  r <- doRunCommand env cmd ;;
  let '(output, errMsg, err) := r in
  ret err.

(** Lines 33-47. *)
Definition Init (gitContext : GitContext) (rootDir remoteUrl : string) (isBare : bool)
  : MI (option error) :=
  bindI (doMkdirAll rootDir perm0755) (fun err =>
  match err with
  | Some e => retI (Some e)
  | None =>
      bindI (liftGit (GitInit gitContext rootDir)) (fun err =>
      match err with
      | Some e => retI (Some e)
      | None => liftGit (GitCreateRemote gitContext rootDir remoteUrl)
      end)
  end).

End Setup.

(** The command lines of [GitInit] (line 93), of [GitCreateRemote]
    (line 101) and of [GetCommits] (lines 108-114). *)
Definition initCmd (gitContext : GitContext) (rootDir : string) : Cmd :=
  CommandContext (gcContext gitContext) "git" ["-C"; rootDir; "init"].

Definition remoteAddCmd (gitContext : GitContext) (rootDir url : string) : Cmd :=
  CommandContext (gcContext gitContext) "git"
    ["-C"; rootDir; "remote"; "add"; "origin"; url].

Definition logCmd (GITFORMAT : string) (gitContext : GitContext)
    (branchRef rootDir : string) (numCommits : Z) (from to : string) : Cmd :=
  CommandContext (gcContext gitContext) "git"
    ["-C"; rootDir; "log"; resolveRange branchRef from to;
     "-n"; Itoa numCommits; "--date=iso-strict"; GITFORMAT].

(** Every commit of a batch has the given checkout path. *)
Definition allCheckedOutAt (rootDir : string) (cs : list GitCommit) : Prop :=
  Forall (fun c => CheckoutPath (GetCommit c) = rootDir) cs.

(** Environments for the worked examples: the one of [Example] with another
    process runner and another [filepath.Abs]. *)
Module Scenario.

Definition envWith (rc : Cmd -> string * string * option error)
    (abs : string -> string * option error) : Env :=
  mkEnv Json.Unmarshal rc abs Example.exStat
        Example.exFetchDiffStat Example.exGetFileStat.

(** A runner that prints something and fails all the same. *)
Definition killed (output : string) (cmd : Cmd) : string * string * option error :=
  (output, "", Some (ExitError "signal: killed")).

(** A runner that prints a text and succeeds. *)
Definition printing (output : string) (cmd : Cmd) : string * string * option error :=
  (output, "", None).

(** A runner on which [git init] works and [git remote add] does not. *)
Definition remoteRejected (cmd : Cmd) : string * string * option error :=
  match cmdArgs cmd with
  | [_; _; "remote"; _; _; _] =>
      ("", "error: remote origin already exists.", Some (ExitError "exit status 3"))
  | _ => ("", "", None)
  end.

(** A working directory that cannot be read: relative paths do not resolve. *)
Definition absNoCwd (path : string) : string * option error :=
  match path with
  | String "/" _ => (path, None)
  | _ => ("", Some (OtherError "getwd: no such file or directory"))
  end.

(** A file system on which only [/readonly] cannot be written. *)
Definition mkdirAll (path : string) (perm : Z) : option error :=
  if String.eqb path "/readonly/repo"
  then Some (PathError "mkdir" "/readonly/repo" false)
  else None.

End Scenario.

(* ================================================================= *)
(** * Properties *)

(** ** Strings and slices *)

Lemma length_snoc (s : string) (c : ascii) :
  String.length (s ++ String c "") = S (String.length s).
Proof.
  induction s as [|a s IH]; simpl; [reflexivity | now rewrite IH].
Qed.

Lemma substring_prefix (s t : string) :
  substring 0 (String.length s) (s ++ t) = s.
Proof.
  induction s as [|a s IH]; simpl.
  - now destruct t.
  - now rewrite IH.
Qed.

(** [logOut[:len(logOut)-1]] drops the last byte, whatever it is. *)
Lemma sliceTo_snoc (s : string) (c : ascii) :
  sliceTo (s ++ String c "") (len (s ++ String c "") - 1) = s.
Proof.
  unfold sliceTo, len. rewrite length_snoc.
  replace (S (String.length s) - 1) with (String.length s) by lia.
  apply substring_prefix.
Qed.

Lemma repaired_snoc (s : string) (c : ascii) :
  repaired (s ++ String c "") = "[" ++ s ++ "]".
Proof.
  unfold repaired. now rewrite sliceTo_snoc.
Qed.

Lemma string_snoc_inv (out : string) :
  out <> "" -> exists s c, out = s ++ String c "".
Proof.
  induction out as [|a out IH]; intros H; [congruence|].
  destruct out as [|b out'].
  - now exists "", a.
  - destruct IH as (s & c & E); [discriminate|].
    exists (String a s), c. simpl. now rewrite <- E.
Qed.

Lemma len_nonEmpty (out : string) :
  out <> "" -> Nat.eqb (len out) 0 = false.
Proof.
  destruct out; [congruence | reflexivity].
Qed.

Lemma append_assoc (a b c : string) : (a ++ b) ++ c = a ++ (b ++ c).
Proof.
  induction a as [|x a IH]; simpl; [reflexivity | now rewrite IH].
Qed.

(** The loop of lines 165-178 is a [map]. *)
Lemma collect_map {A B : Type} (f : A -> B) (l : list A) (acc : list B) :
  fold_left (fun acc x => (acc ++ [f x])%list) l acc = (acc ++ map f l)%list.
Proof.
  revert acc; induction l as [|x l IH]; intros acc; simpl.
  - now rewrite app_nil_r.
  - rewrite IH, <- app_assoc. reflexivity.
Qed.

(** ** The decoder, case by case *)

Lemma processGitLogOutput_empty (env : Env) (rootDir : string) :
  processGitLogOutput env "" rootDir = (Some [], None).
Proof. reflexivity. Qed.

Lemma processGitLogOutput_nonempty (env : Env) (out rootDir : string) :
  out <> "" ->
  processGitLogOutput env out rootDir =
  match json_Unmarshal env (repaired out) with
  | (_, Some e) => (None, Some e)
  | (l, None) => (Some (map (commitOfFragment rootDir) (elems l)), None)
  end.
Proof.
  intros H. unfold processGitLogOutput.
  rewrite (len_nonEmpty out H). fold (repaired out).
  destruct (json_Unmarshal env (repaired out)) as [l [e|]]; [reflexivity|].
  f_equal. f_equal.
  exact (collect_map (commitOfFragment rootDir) (elems l) []).
Qed.

(** ** Running the monad *)

Ltac unfold_M :=
  unfold result, trace, run, doRunCommand, doAbs, doStat, doFetchDiffStat,
    bind, ret, emit in *; cbn [fst snd app] in *.

(** [GitShow] runs the show query once and looks only at its output. *)
Lemma GitShow_run (env : Env) (G : string) (gitContext : GitContext)
    (rootDir hash : string) :
  run (GitShow env G gitContext rootDir hash) =
  (let output := fst (fst (runCommand env (showCmd G gitContext rootDir hash))) in
   let r := processGitLogOutput env output rootDir in
   if isErr (snd r) || Nat.eqb (lenSlice (fst r)) 0 then (None, snd r)
   else (index0 (fst r), None),
   [EvRun (showCmd G gitContext rootDir hash)]).
Proof.
  unfold GitShow. fold (showCmd G gitContext rootDir hash). unfold_M.
  destruct (runCommand env (showCmd G gitContext rootDir hash)) as [[output errMsg] perr].
  cbn [fst snd].
  destruct (processGitLogOutput env output rootDir) as [cs err]. cbn [fst snd].
  destruct (isErr err || Nat.eqb (lenSlice cs) 0); reflexivity.
Qed.

(** ** The range resolver *)

Lemma getCommandForLogRange_resolve
    (branchRef from to : string) (rangeCmdArgs baseCmdArgs extraCmdArgs : list string) :
  getCommandForLogRange branchRef from to rangeCmdArgs baseCmdArgs extraCmdArgs =
  (baseCmdArgs
   ++ (if nonEmpty from || nonEmpty to
       then [resolveRange branchRef from to] else rangeCmdArgs)
   ++ extraCmdArgs)%list.
Proof.
  unfold getCommandForLogRange, resolveRange.
  destruct from, to; reflexivity.
Qed.

(** C3.  The range argument of [getCommandForLogRange], by precedence: with
    [from] and [to] both non-empty it is [from^..to]; else with [from]
    non-empty it is [from^..branchRef]; else with [to] non-empty it is [to];
    else it is the range handed in, which [GetCommits] (line 109) sets to
    [branchRef] itself. *)
Theorem getCommandForLogRange_precedence :
  forall (branchRef from to : string)
         (rangeCmdArgs baseCmdArgs extraCmdArgs : list string),
    (from <> "" -> to <> "" ->
     getCommandForLogRange branchRef from to rangeCmdArgs baseCmdArgs extraCmdArgs
     = (baseCmdArgs ++ [(from ++ "^.." ++ to)%string] ++ extraCmdArgs)%list)
    /\ (from <> "" -> to = "" ->
        getCommandForLogRange branchRef from to rangeCmdArgs baseCmdArgs extraCmdArgs
        = (baseCmdArgs ++ [(from ++ "^.." ++ branchRef)%string] ++ extraCmdArgs)%list)
    /\ (from = "" -> to <> "" ->
        getCommandForLogRange branchRef from to rangeCmdArgs baseCmdArgs extraCmdArgs
        = (baseCmdArgs ++ [to] ++ extraCmdArgs)%list)
    /\ (from = "" -> to = "" -> rangeCmdArgs = [branchRef] ->
        getCommandForLogRange branchRef from to rangeCmdArgs baseCmdArgs extraCmdArgs
        = (baseCmdArgs ++ [branchRef] ++ extraCmdArgs)%list).
Proof.
  intros branchRef from to rangeCmdArgs baseCmdArgs extraCmdArgs.
  unfold getCommandForLogRange.
  destruct from, to; repeat split; intros; subst; try congruence; reflexivity.
Qed.

(** The four cases on the branch [main]. *)
Lemma getCommandForLogRange_precedence_witness :
  getCommandForLogRange "main" "A" "B" ["main"] ["-C"; "/repo"; "log"] ["-n"; "5"]
  = ["-C"; "/repo"; "log"; "A^..B"; "-n"; "5"]
  /\ getCommandForLogRange "main" "A" "" ["main"] ["-C"; "/repo"; "log"] ["-n"; "5"]
     = ["-C"; "/repo"; "log"; "A^..main"; "-n"; "5"]
  /\ getCommandForLogRange "main" "" "B" ["main"] ["-C"; "/repo"; "log"] ["-n"; "5"]
     = ["-C"; "/repo"; "log"; "B"; "-n"; "5"]
  /\ getCommandForLogRange "main" "" "" ["main"] ["-C"; "/repo"; "log"] ["-n"; "5"]
     = ["-C"; "/repo"; "log"; "main"; "-n"; "5"].
Proof.
  split; [|split; [|split]].
  - apply (proj1 (getCommandForLogRange_precedence
                    "main" "A" "B" ["main"] ["-C"; "/repo"; "log"] ["-n"; "5"]));
      discriminate.
  - apply (proj1 (proj2 (getCommandForLogRange_precedence
                    "main" "A" "" ["main"] ["-C"; "/repo"; "log"] ["-n"; "5"])));
      [discriminate | reflexivity].
  - apply (proj1 (proj2 (proj2 (getCommandForLogRange_precedence
                    "main" "" "B" ["main"] ["-C"; "/repo"; "log"] ["-n"; "5"]))));
      [reflexivity | discriminate].
  - apply (proj2 (proj2 (proj2 (getCommandForLogRange_precedence
                    "main" "" "" ["main"] ["-C"; "/repo"; "log"] ["-n"; "5"]))));
      reflexivity.
Defined.

(** C10.  Whichever range case fires, the arguments of a history query are
    the base arguments [-C rootDir log], then the range, then the extra
    arguments: the cap [-n numCommits], [--date=iso-strict] and the output
    template come after the range in the one command [GetCommits] runs. *)
Theorem GetCommits_argument_order :
  forall (env : Env) (G : string) (gitContext : GitContext)
         (branchRef branch rootDir : string) (numCommits : Z) (from to : string),
    (forall rangeCmdArgs baseCmdArgs extraCmdArgs : list string,
        exists range : list string,
          getCommandForLogRange branchRef from to rangeCmdArgs baseCmdArgs extraCmdArgs
          = (baseCmdArgs ++ range ++ extraCmdArgs)%list
          /\ (range = [(from ++ "^.." ++ to)%string] \/ range = [(from ++ "^.." ++ branchRef)%string]
              \/ range = [to] \/ range = rangeCmdArgs))
    /\ trace (GetCommits env G gitContext branchRef branch rootDir numCommits from to)
       = [EvRun (CommandContext (gcContext gitContext) "git"
                   (["-C"; rootDir; "log"]
                    ++ [resolveRange branchRef from to]
                    ++ ["-n"; Itoa numCommits; "--date=iso-strict"; G])%list)].
Proof.
  intros env G gitContext branchRef branch rootDir numCommits from to. split.
  - intros rangeCmdArgs baseCmdArgs extraCmdArgs.
    unfold getCommandForLogRange.
    destruct from as [|f from'], to as [|t to']; cbn [nonEmpty andb];
      eexists; (split; [reflexivity|]); auto.
  - unfold GetCommits. rewrite getCommandForLogRange_resolve.
    replace (if nonEmpty from || nonEmpty to
             then [resolveRange branchRef from to] else [branchRef])
      with [resolveRange branchRef from to]
      by (destruct from, to; reflexivity).
    unfold_M.
    match goal with
    | |- context [runCommand env ?c] =>
        destruct (runCommand env c) as [[output errMsg] [e|]]
    end; [reflexivity|].
    destruct (processGitLogOutput env output rootDir) as [cs [e|]]; reflexivity.
Qed.

(** ** The decoder *)

(** C5.  On the empty raw output the decoder returns a list of length zero
    (the empty slice, not nil) and the nil error. *)
Theorem processGitLogOutput_empty_output :
  forall (env : Env) (rootDir : string),
    processGitLogOutput env "" rootDir = (Some [], None)
    /\ lenSlice (fst (processGitLogOutput env "" rootDir)) = 0
    /\ snd (processGitLogOutput env "" rootDir) = None.
Proof.
  intros env rootDir. rewrite processGitLogOutput_empty. repeat split.
Qed.

(** C4.  On a non-empty raw output whose repaired text [json.Unmarshal]
    rejects, the decoder returns that error and the nil list; and never, on
    any output, a list alongside an error. *)
Theorem processGitLogOutput_no_partial_batch :
  forall (env : Env) (out rootDir : string),
    (out <> "" ->
     forall e, snd (json_Unmarshal env (repaired out)) = Some e ->
               processGitLogOutput env out rootDir = (None, Some e))
    /\ (fails (processGitLogOutput env out rootDir) ->
        fst (processGitLogOutput env out rootDir) = None).
Proof.
  intros env out rootDir. split.
  - intros Hne e He. rewrite (processGitLogOutput_nonempty env out rootDir Hne).
    destruct (json_Unmarshal env (repaired out)) as [l err].
    simpl in He. subst err. reflexivity.
  - intros [e He]. destruct out as [|a out'].
    + rewrite processGitLogOutput_empty in He. discriminate.
    + rewrite processGitLogOutput_nonempty in * by discriminate.
      destruct (json_Unmarshal env (repaired (String a out'))) as [l [err|]];
        [reflexivity | discriminate].
Qed.

(** C6.  When the repaired text of a raw output parses to N fragments, the
    decoder returns N commits in the order of the fragments; the i-th has
    the author [Name <Email>] of the i-th fragment's committer, the message
    [Subject], a newline, [Body], the committer date and the hash as they
    are, and the [rootDir] argument as its checkout path. *)
Theorem processGitLogOutput_commits :
  forall (env : Env) (out rootDir : string) (frags : option (list GitCommitFormat)),
    out <> "" ->
    json_Unmarshal env (repaired out) = (frags, None) ->
    exists cs : list GitCommit,
      processGitLogOutput env out rootDir = (Some cs, None)
      /\ List.length cs = List.length (elems frags)
      /\ forall (i : nat) (f : GitCommitFormat),
          nth_error (elems frags) i = Some f ->
          exists c : GitCommit,
            nth_error cs i = Some c
            /\ Author (GetCommit c)
               = Name (fCommiter f) ++ " <" ++ Email (fCommiter f) ++ ">"
            /\ Message (GetCommit c) = Subject f ++ String LF "" ++ Body f
            /\ CommitDate (GetCommit c) = Date (fCommiter f)
            /\ Commit (GetCommit c) = fCommit f
            /\ CheckoutPath (GetCommit c) = rootDir.
Proof.
  intros env out rootDir frags Hne Hparse.
  exists (map (commitOfFragment rootDir) (elems frags)).
  rewrite (processGitLogOutput_nonempty env out rootDir Hne), Hparse.
  split; [reflexivity|]. split; [apply length_map|].
  intros i f Hi. exists (commitOfFragment rootDir f).
  split; [now apply map_nth_error|]. repeat split.
Qed.

(** A number where the hash of the second fragment belongs: the reference
    decoder leaves two elements and a type error behind, the function
    returns the error alone. *)
Lemma processGitLogOutput_no_partial_batch_witness :
  lenSlice (fst (json_Unmarshal Example.env (repaired Example.mistyped))) = 2
  /\ processGitLogOutput Example.env Example.mistyped "/repo"
     = (None, Some (UnmarshalTypeError "number" "commit"))
  /\ fst (processGitLogOutput Example.env Example.mistyped "/repo") = None.
Proof.
  split; [vm_compute; reflexivity|]. split.
  - apply (proj1 (processGitLogOutput_no_partial_batch
                    Example.env Example.mistyped "/repo")).
    + vm_compute; discriminate.
    + vm_compute; reflexivity.
  - apply (proj2 (processGitLogOutput_no_partial_batch
                    Example.env Example.mistyped "/repo")).
    exists (UnmarshalTypeError "number" "commit"). vm_compute; reflexivity.
Defined.

(** The history of two commits decodes to two commits, the first first. *)
Lemma processGitLogOutput_commits_witness :
  exists cs : list GitCommit,
    processGitLogOutput Example.env Example.logOutput "/repo" = (Some cs, None)
    /\ List.length cs = 2
    /\ nth_error cs 0 = Some Example.commitA.
Proof.
  destruct (processGitLogOutput_commits Example.env Example.logOutput "/repo"
              (Some [Example.parsedA; Example.parsedB]))
    as (cs & Hcs & Hlen & Hnth).
  - vm_compute; discriminate.
  - vm_compute; reflexivity.
  - exists cs. split; [exact Hcs|]. split; [exact Hlen|].
    vm_compute in Hcs. injection Hcs as <-. vm_compute. reflexivity.
Defined.

(** ** One commit by tag or hash *)

(** C1, as the code has it.  When the show query succeeds at the process
    level and its output decodes, without error, to zero commits, [GitShow]
    (and so [GetCommitForHash] and [GetCommitsForTag]) returns the nil
    commit together with the nil error: the guard of line 144 returns the
    decoder's error, which is nil. *)
Theorem GitShow_zero_commits :
  forall (env : Env) (G : string) (gitContext : GitContext)
         (rootDir hash output errMsg : string),
    runCommand env (showCmd G gitContext rootDir hash) = (output, errMsg, None) ->
    snd (processGitLogOutput env output rootDir) = None ->
    lenSlice (fst (processGitLogOutput env output rootDir)) = 0 ->
    result (GitShow env G gitContext rootDir hash) = (None, None)
    /\ result (GetCommitForHash env G gitContext rootDir hash) = (None, None)
    /\ result (GetCommitsForTag env G gitContext rootDir hash) = (None, None).
Proof.
  intros env G gitContext rootDir hash output errMsg Hrun Herr Hlen.
  unfold GetCommitForHash, GetCommitsForTag, result.
  rewrite GitShow_run, Hrun. cbn [fst snd].
  rewrite Herr, Hlen. cbn. repeat split.
Qed.

(** A ref of which [git show] prints nothing. *)
Lemma GitShow_zero_commits_witness :
  result (GitShow Example.env Example.GITFORMAT Example.ctx "/repo" "no-such-ref")
  = (None, None).
Proof.
  apply (GitShow_zero_commits Example.env Example.GITFORMAT Example.ctx
           "/repo" "no-such-ref" "" "").
  - vm_compute; reflexivity.
  - vm_compute; reflexivity.
  - vm_compute; reflexivity.
Defined.

(** C1 as stated fails: the show query of a ref that prints nothing
    succeeds at the process level, decodes to zero commits, and
    [GetCommitForHash] returns the nil commit with no error at all. *)
Lemma GetCommitForHash_zero_commits_no_error :
  runCommand Example.env
    (showCmd Example.GITFORMAT Example.ctx "/repo" "no-such-ref") = ("", "", None)
  /\ processGitLogOutput Example.env "" "/repo" = (Some [], None)
  /\ result (GetCommitForHash Example.env Example.GITFORMAT Example.ctx
               "/repo" "no-such-ref") = (None, None)
  /\ ~ fails (result (GetCommitForHash Example.env Example.GITFORMAT Example.ctx
                        "/repo" "no-such-ref")).
Proof.
  split; [vm_compute; reflexivity|].
  split; [vm_compute; reflexivity|].
  split; [vm_compute; reflexivity|].
  intros [e He]. vm_compute in He. discriminate He.
Qed.

(** C9.  When the output of the show query decodes to more than one commit,
    [GitShow] returns the first of the decoded list and the nil error; the
    others are dropped. *)
Theorem GitShow_first_of_many :
  forall (env : Env) (G : string) (gitContext : GitContext)
         (rootDir hash output errMsg : string) (perr : option error)
         (c0 c1 : GitCommit) (rest : list GitCommit),
    runCommand env (showCmd G gitContext rootDir hash) = (output, errMsg, perr) ->
    processGitLogOutput env output rootDir = (Some (c0 :: c1 :: rest), None) ->
    result (GitShow env G gitContext rootDir hash) = (Some c0, None)
    /\ result (GetCommitForHash env G gitContext rootDir hash) = (Some c0, None)
    /\ result (GetCommitsForTag env G gitContext rootDir hash) = (Some c0, None).
Proof.
  intros env G gitContext rootDir hash output errMsg perr c0 c1 rest Hrun Hdec.
  unfold GetCommitForHash, GetCommitsForTag, result.
  rewrite GitShow_run, Hrun. cbn [fst snd]. rewrite Hdec. cbn. repeat split.
Qed.

(** The ref [v1], of which [git show] prints two fragments. *)
Lemma GitShow_first_of_many_witness :
  result (GitShow Example.env Example.GITFORMAT Example.ctx "/repo" "v1")
  = (Some Example.commitA, None).
Proof.
  apply (GitShow_first_of_many Example.env Example.GITFORMAT Example.ctx
           "/repo" "v1" Example.logOutput "" None
           Example.commitA
           (commitOfFragment "/repo" Example.parsedB) []).
  - vm_compute; reflexivity.
  - vm_compute; reflexivity.
Defined.

(** ** Opening a checkout *)

(** C2, as the code has it.  For a [checkoutPath] that [filepath.Abs]
    resolves: when the stat of [.git] succeeds, and also when it reports
    not-found, [OpenRepoPlain] returns a handle whose [rootDir] is
    [checkoutPath] and the nil error; when the stat fails otherwise, it
    returns no handle and that error. *)
Theorem OpenRepoPlain_cases :
  forall (env : Env) (checkoutPath : string),
    snd (filepath_Abs env checkoutPath) = None ->
    (osfs_Stat env checkoutPath ".git" = None ->
     result (OpenRepoPlain env checkoutPath)
     = (Some (mkGitRepository checkoutPath), None))
    /\ (IsNotExist (osfs_Stat env checkoutPath ".git") = true ->
        result (OpenRepoPlain env checkoutPath)
        = (Some (mkGitRepository checkoutPath), None))
    /\ (forall e : error,
           osfs_Stat env checkoutPath ".git" = Some e ->
           IsNotExist (Some e) = false ->
           result (OpenRepoPlain env checkoutPath) = (None, Some e)).
Proof.
  intros env checkoutPath Habs.
  unfold OpenRepoPlain, openGitRepo. unfold_M.
  destruct (filepath_Abs env checkoutPath) as [p [e|]]; [discriminate|].
  cbn [snd].
  repeat split.
  - intros ->. reflexivity.
  - intros H. rewrite H. reflexivity.
  - intros e -> H. rewrite H. reflexivity.
Qed.

(** A checkout with [.git], one without, and one that cannot be read. *)
Lemma OpenRepoPlain_cases_witness :
  result (OpenRepoPlain Example.env "/checkout")
  = (Some (mkGitRepository "/checkout"), None)
  /\ result (OpenRepoPlain Example.env "/repo")
     = (Some (mkGitRepository "/repo"), None)
  /\ result (OpenRepoPlain Example.env "/locked")
     = (None, Some (PathError "stat" "/locked/.git" false)).
Proof.
  split; [|split].
  - apply (proj1 (OpenRepoPlain_cases Example.env "/checkout" eq_refl)).
    vm_compute; reflexivity.
  - apply (proj1 (proj2 (OpenRepoPlain_cases Example.env "/repo" eq_refl))).
    vm_compute; reflexivity.
  - apply (proj2 (proj2 (OpenRepoPlain_cases Example.env "/locked" eq_refl))).
    + vm_compute; reflexivity.
    + vm_compute; reflexivity.
Defined.

(** C2 as stated fails: the stat of [/repo/.git] reports not-found, and
    [OpenRepoPlain] returns a handle and no error. *)
Lemma OpenRepoPlain_absent_metadata_opens :
  IsNotExist (osfs_Stat Example.env "/repo" ".git") = true
  /\ result (OpenRepoPlain Example.env "/repo")
     = (Some (mkGitRepository "/repo"), None)
  /\ ~ fails (result (OpenRepoPlain Example.env "/repo")).
Proof.
  split; [vm_compute; reflexivity|].
  split; [vm_compute; reflexivity|].
  intros [e He]. vm_compute in He. discriminate He.
Qed.

(** ** File statistics of a commit *)

(** C7.  [GetCommitStats] makes one diff-stat query, with the commit's own
    hash as the first revision, the empty string as the second and the
    commit's checkout path; when that query returns an error it returns the
    nil [FileStats] and the same error, and otherwise what [getFileStat]
    makes of the query's output. *)
Theorem GetCommitStats_delegates :
  forall (env : Env) (gitContext : GitContext) (commit : GitCommit),
    let gitCommit := GetCommit commit in
    let queried :=
      FetchDiffStatBetweenCommits env gitContext
        (Commit gitCommit) "" (CheckoutPath gitCommit) in
    trace (GetCommitStats env gitContext commit)
    = [EvDiffStat gitContext (Commit gitCommit) "" (CheckoutPath gitCommit)]
    /\ (forall e : error,
           snd queried = Some e ->
           result (GetCommitStats env gitContext commit) = (None, Some e))
    /\ (snd queried = None ->
        result (GetCommitStats env gitContext commit)
        = getFileStat env (fst (fst queried))).
Proof.
  intros env gitContext commit gitCommit queried.
  unfold GetCommitStats. fold gitCommit. unfold_M. fold queried.
  destruct queried as [[fileStat errorMsg] [err|]]; cbn [fst snd].
  - repeat split.
    + intros e [= ->]. reflexivity.
    + discriminate.
  - repeat split. discriminate.
Qed.

(** A commit whose diff-stat query fails, and one whose query succeeds. *)
Lemma GetCommitStats_delegates_witness :
  result (GetCommitStats Example.env Example.ctx
            (commitOfFragment "/repo" Example.parsedB))
  = (None, Some (ExitError "exit status 128"))
  /\ result (GetCommitStats Example.env Example.ctx Example.commitA)
     = (Some [("src/main.go", Counts 3 1)], None).
Proof.
  split.
  - apply (proj1 (proj2 (GetCommitStats_delegates Example.env Example.ctx
                           (commitOfFragment "/repo" Example.parsedB)))).
    vm_compute; reflexivity.
  - apply (proj2 (proj2 (GetCommitStats_delegates Example.env Example.ctx
                           Example.commitA))).
    vm_compute; reflexivity.
Defined.

(** ** Bracket nesting *)

Lemma nestScan_app (st : LexMode * Z) (a b : string) :
  nestScan st (a ++ b) = nestScan (nestScan st a) b.
Proof.
  revert st; induction a as [|c a IH]; intros st; simpl; [reflexivity | apply IH].
Qed.

Lemma nestStep_neutral (d : Z) (c : ascii) :
  neutral c = true -> nestStep (Outside, d) c = (Outside, d).
Proof.
  unfold neutral, nestStep.
  destruct (Ascii.eqb c DQUOTE), (isOpen c), (isClose c); simpl;
    intros H; try discriminate H; reflexivity.
Qed.

(** Inside a literal, a closing bracket and whatever follows it are part of
    the literal; outside, each closing bracket takes the depth down by one.
    So of a text and the text without the brace before its last bracket,
    one at most is well nested. *)
Lemma wellNested_without_closing_brace (p : string) :
  wellNested (p ++ "}]") -> ~ wellNested (p ++ "]").
Proof.
  unfold wellNested. rewrite !nestScan_app.
  destruct (nestScan (Outside, 0%Z) p) as [[| |] d]; simpl;
    intros H H'; inversion H; inversion H'; lia.
Qed.

Module JsonFacts.
Import Json.

#[local] Arguments nestStep : simpl never.

Ltac by_cases_on_char c :=
  destruct c as [[] [] [] [] [] [] [] []]; vm_compute; intros; congruence.

Lemma isSpace_neutral (c : ascii) : isSpace c = true -> neutral c = true.
Proof. by_cases_on_char c. Qed.

Lemma isDigit_neutral (c : ascii) : isDigit c = true -> neutral c = true.
Proof. by_cases_on_char c. Qed.

Lemma hexVal_plain (c : ascii) (n : N) :
  hexVal c = Some n ->
  Ascii.eqb c DQUOTE = false /\ Ascii.eqb c BACKSLASH = false.
Proof.
  revert n. destruct c as [[] [] [] [] [] [] [] []]; vm_compute; intros n H;
    (split; [reflexivity | reflexivity]) || discriminate H.
Qed.

Lemma control_plain (c : ascii) :
  Ascii.eqb c DQUOTE = false -> Ascii.eqb c BACKSLASH = false ->
  forall d, nestStep (InString, d) c = (InString, d).
Proof.
  intros H1 H2 d. unfold nestStep. now rewrite H1, H2.
Qed.

Lemma skipSpace_scan (d : Z) (s : string) :
  nestScan (Outside, d) (skipSpace s) = nestScan (Outside, d) s.
Proof.
  induction s as [|c s IH]; simpl; [reflexivity|].
  destruct (isSpace c) eqn:E; [|reflexivity].
  rewrite (nestStep_neutral d c (isSpace_neutral c E)). exact IH.
Qed.

Lemma skipDigits_scan (d : Z) (s : string) :
  nestScan (Outside, d) (skipDigits s) = nestScan (Outside, d) s.
Proof.
  induction s as [|c s IH]; simpl; [reflexivity|].
  destruct (isDigit c) eqn:E; [|reflexivity].
  rewrite (nestStep_neutral d c (isDigit_neutral c E)). exact IH.
Qed.

Lemma digits1_scan (d : Z) (s rest : string) :
  digits1 s = Some rest ->
  nestScan (Outside, d) s = nestScan (Outside, d) rest.
Proof.
  destruct s as [|c s]; simpl; [discriminate|].
  destruct (isDigit c) eqn:E; [|discriminate].
  intros [= <-].
  rewrite (nestStep_neutral d c (isDigit_neutral c E)).
  symmetry; apply skipDigits_scan.
Qed.

Ltac char_eq H :=
  apply Ascii.eqb_eq in H; subst.

Lemma optMinus_scan (d : Z) (s : string) :
  nestScan (Outside, d) (optMinus s) = nestScan (Outside, d) s.
Proof.
  destruct s as [|c s]; simpl; [reflexivity|].
  destruct (Ascii.eqb c "-") eqn:E; [char_eq E|]; reflexivity.
Qed.

Lemma optSign_scan (d : Z) (s : string) :
  nestScan (Outside, d) (optSign s) = nestScan (Outside, d) s.
Proof.
  destruct s as [|c s]; simpl; [reflexivity|].
  destruct (Ascii.eqb c "+") eqn:E1; [char_eq E1; reflexivity|].
  destruct (Ascii.eqb c "-") eqn:E2; [char_eq E2|]; reflexivity.
Qed.

Lemma intPart_scan (d : Z) (s rest : string) :
  intPart s = Some rest ->
  nestScan (Outside, d) s = nestScan (Outside, d) rest.
Proof.
  destruct s as [|c s]; simpl; [discriminate|].
  destruct (Ascii.eqb c "0") eqn:E0.
  - char_eq E0. intros [= <-]. reflexivity.
  - destruct (isDigit c) eqn:E; [|discriminate].
    intros [= <-].
    rewrite (nestStep_neutral d c (isDigit_neutral c E)).
    symmetry; apply skipDigits_scan.
Qed.

Lemma fracPart_scan (d : Z) (s rest : string) :
  fracPart s = Some rest ->
  nestScan (Outside, d) s = nestScan (Outside, d) rest.
Proof.
  destruct s as [|c s]; simpl; [now intros [= <-]|].
  destruct (Ascii.eqb c ".") eqn:E.
  - char_eq E. intros H. apply (digits1_scan d) in H. exact H.
  - now intros [= <-].
Qed.

Lemma expPart_scan (d : Z) (s rest : string) :
  expPart s = Some rest ->
  nestScan (Outside, d) s = nestScan (Outside, d) rest.
Proof.
  destruct s as [|c s]; simpl; [now intros [= <-]|].
  destruct (Ascii.eqb c "e") eqn:E1; simpl.
  - char_eq E1. intros H. apply (digits1_scan d) in H.
    rewrite <- H. symmetry. apply optSign_scan.
  - destruct (Ascii.eqb c "E") eqn:E2.
    + char_eq E2. intros H. apply (digits1_scan d) in H.
      rewrite <- H. symmetry. apply optSign_scan.
    + now intros [= <-].
Qed.

Lemma numberRest_scan (d : Z) (s rest : string) :
  numberRest s = Some rest ->
  nestScan (Outside, d) s = nestScan (Outside, d) rest.
Proof.
  unfold numberRest.
  destruct (intPart (optMinus s)) as [s2|] eqn:E2; [|discriminate].
  destruct (fracPart s2) as [s3|] eqn:E3; [|discriminate].
  intros E4.
  rewrite <- (optMinus_scan d s).
  rewrite (intPart_scan d _ _ E2), (fracPart_scan d _ _ E3).
  apply (expPart_scan d _ _ E4).
Qed.

Lemma stripPrefix_app (p s rest : string) :
  stripPrefix p s = Some rest -> s = p ++ rest.
Proof.
  revert s; induction p as [|a p IH]; intros s; simpl.
  - now intros [= ->].
  - destruct s as [|b s]; [discriminate|].
    destruct (Ascii.eqb a b) eqn:E; [|discriminate].
    char_eq E. intros H. now rewrite (IH s H).
Qed.

(** A string literal is left where its closing quote stands. *)
Lemma stringBody_scan (n : nat) :
  forall (s : string), String.length s <= n ->
  forall (ps : list piece) (rest : string) (d : Z),
    stringBody s = Some (ps, rest) ->
    nestScan (InString, d) s = nestScan (Outside, d) rest.
Proof.
  induction n as [|n IH]; intros s Hlen ps rest d H.
  - destruct s; [discriminate H | simpl in Hlen; lia].
  - destruct s as [|c r]; [discriminate H|].
    simpl in Hlen. cbn [stringBody] in H.
    destruct (Ascii.eqb c DQUOTE) eqn:Eq.
    { char_eq Eq. injection H as _ <-. reflexivity. }
    destruct (Ascii.eqb c BACKSLASH) eqn:Eb.
    { char_eq Eb. destruct r as [|e r1]; [discriminate H|].
      simpl in Hlen.
      change (nestScan (InString, d) (String BACKSLASH (String e r1)))
        with (nestScan (InString, d) r1).
      destruct (Ascii.eqb e "u") eqn:Eu.
      - destruct r1 as [|h1 [|h2 [|h3 [|h4 r2]]]]; try discriminate H.
        destruct (hexVal h1) as [a|] eqn:E1; [|discriminate H].
        destruct (hexVal h2) as [b|] eqn:E2; [|discriminate H].
        destruct (hexVal h3) as [c'|] eqn:E3; [|discriminate H].
        destruct (hexVal h4) as [d'|] eqn:E4; [|discriminate H].
        destruct (stringBody r2) as [[ps' rest']|] eqn:Er; [|discriminate H].
        injection H as _ <-.
        apply hexVal_plain in E1, E2, E3, E4.
        cbn [nestScan].
        rewrite !control_plain by tauto.
        apply (IH r2) with (ps := ps'); [simpl in Hlen; lia | exact Er].
      - destruct (simpleEscape e) as [x|]; [|discriminate H].
        destruct (stringBody r1) as [[ps' rest']|] eqn:Er; [|discriminate H].
        injection H as _ <-.
        apply (IH r1) with (ps := ps'); [lia | exact Er]. }
    destruct (N_of_ascii c <? 32)%N; [discriminate H|].
    destruct (stringBody r) as [[ps' rest']|] eqn:Er; [|discriminate H].
    injection H as _ <-.
    cbn [nestScan]. rewrite control_plain by assumption.
    apply (IH r) with (ps := ps'); [lia | exact Er].
Qed.

Lemma stringBody_closes (s : string) (ps : list piece) (rest : string) (d : Z) :
  stringBody s = Some (ps, rest) ->
  nestScan (Outside, d) (String DQUOTE s) = nestScan (Outside, d) rest.
Proof.
  intros H. cbn [nestScan].
  change (nestStep (Outside, d) DQUOTE) with (InString, d).
  exact (stringBody_scan (String.length s) s (le_n _) ps rest d H).
Qed.

Lemma depth_back (m : LexMode) (d : Z) (s : string) :
  nestScan (m, (d + 1 - 1)%Z) s = nestScan (m, d) s.
Proof. now replace (d + 1 - 1)%Z with d by lia. Qed.

(** What the parser consumes is balanced: a value leaves the depth as it
    found it; the elements of an array, and the members of an object, take
    it down by one, for the bracket that closes them. *)
Lemma parse_scan (fuel : nat) :
  (forall s v rest d,
      parseValue fuel s = Some (v, rest) ->
      nestScan (Outside, d) s = nestScan (Outside, d) rest)
  /\ (forall s vs rest d,
         parseElements fuel s = Some (vs, rest) ->
         nestScan (Outside, d) s = nestScan (Outside, (d - 1)%Z) rest)
  /\ (forall s ms rest d,
         parseMembers fuel s = Some (ms, rest) ->
         nestScan (Outside, d) s = nestScan (Outside, (d - 1)%Z) rest).
Proof.
  induction fuel as [|fuel (IHv & IHe & IHm)];
    [repeat split; intros; discriminate|].
  split; [|split].
  - intros s v rest d H. cbn [parseValue] in H.
    rewrite <- (skipSpace_scan d s).
    destruct (skipSpace s) as [|c r]; [discriminate H|].
    destruct (Ascii.eqb c "{") eqn:E1.
    { char_eq E1. cbn [nestScan].
      change (nestStep (Outside, d) "{") with (Outside, (d + 1)%Z).
      rewrite <- (skipSpace_scan (d + 1) r).
      destruct (skipSpace r) as [|c' r'] eqn:Er; [discriminate H|].
      destruct (Ascii.eqb c' "}") eqn:E2.
      - char_eq E2. injection H as _ <-. cbn [nestScan].
        change (nestStep (Outside, (d + 1)%Z) "}") with (Outside, (d + 1 - 1)%Z).
        apply depth_back.
      - destruct (parseMembers fuel r) as [[ms rest']|] eqn:Em; [|discriminate H].
        injection H as _ <-.
        rewrite <- Er, skipSpace_scan, (IHm _ _ _ (d + 1)%Z Em).
        apply depth_back. }
    destruct (Ascii.eqb c "[") eqn:E2.
    { char_eq E2. cbn [nestScan].
      change (nestStep (Outside, d) "[") with (Outside, (d + 1)%Z).
      rewrite <- (skipSpace_scan (d + 1) r).
      destruct (skipSpace r) as [|c' r'] eqn:Er; [discriminate H|].
      destruct (Ascii.eqb c' "]") eqn:E3.
      - char_eq E3. injection H as _ <-. cbn [nestScan].
        change (nestStep (Outside, (d + 1)%Z) "]") with (Outside, (d + 1 - 1)%Z).
        apply depth_back.
      - destruct (parseElements fuel r) as [[vs rest']|] eqn:Em; [|discriminate H].
        injection H as _ <-.
        rewrite <- Er, skipSpace_scan, (IHe _ _ _ (d + 1)%Z Em).
        apply depth_back. }
    destruct (Ascii.eqb c DQUOTE) eqn:E3.
    { char_eq E3.
      destruct (stringBody r) as [[ps rest']|] eqn:Eb; [|discriminate H].
      injection H as _ <-. exact (stringBody_closes r ps rest' d Eb). }
    destruct (Ascii.eqb c "t") eqn:E4.
    { char_eq E4.
      destruct (stripPrefix "rue" r) as [rest'|] eqn:Ep; [|discriminate H].
      injection H as _ <-. rewrite (stripPrefix_app _ _ _ Ep). reflexivity. }
    destruct (Ascii.eqb c "f") eqn:E5.
    { char_eq E5.
      destruct (stripPrefix "alse" r) as [rest'|] eqn:Ep; [|discriminate H].
      injection H as _ <-. rewrite (stripPrefix_app _ _ _ Ep). reflexivity. }
    destruct (Ascii.eqb c "n") eqn:E6.
    { char_eq E6.
      destruct (stripPrefix "ull" r) as [rest'|] eqn:Ep; [|discriminate H].
      injection H as _ <-. rewrite (stripPrefix_app _ _ _ Ep). reflexivity. }
    destruct (numberRest (String c r)) as [rest'|] eqn:En; [|discriminate H].
    injection H as _ <-. exact (numberRest_scan d _ _ En).
  - intros s vs rest d H. cbn [parseElements] in H.
    destruct (parseValue fuel s) as [[v r]|] eqn:Ev; [|discriminate H].
    rewrite (IHv _ _ _ d Ev), <- (skipSpace_scan d r).
    destruct (skipSpace r) as [|c r']; [discriminate H|].
    destruct (Ascii.eqb c ",") eqn:E1.
    { char_eq E1.
      destruct (parseElements fuel r') as [[vs' rest']|] eqn:Ee; [|discriminate H].
      injection H as _ <-. exact (IHe _ _ _ d Ee). }
    destruct (Ascii.eqb c "]") eqn:E2; [|discriminate H].
    char_eq E2. injection H as _ <-. reflexivity.
  - intros s ms rest d H. cbn [parseMembers] in H.
    rewrite <- (skipSpace_scan d s).
    destruct (skipSpace s) as [|q r]; [discriminate H|].
    destruct (Ascii.eqb q DQUOTE) eqn:Eq; [|discriminate H].
    char_eq Eq.
    destruct (stringBody r) as [[ps r1]|] eqn:Eb; [|discriminate H].
    rewrite (stringBody_closes r ps r1 d Eb), <- (skipSpace_scan d r1).
    destruct (skipSpace r1) as [|c r2]; [discriminate H|].
    destruct (Ascii.eqb c ":") eqn:Ec; [|discriminate H].
    char_eq Ec.
    destruct (parseValue fuel r2) as [[v r3]|] eqn:Ev; [|discriminate H].
    cbn [nestScan]. change (nestStep (Outside, d) ":") with (Outside, d).
    rewrite (IHv _ _ _ d Ev), <- (skipSpace_scan d r3).
    destruct (skipSpace r3) as [|c' r4]; [discriminate H|].
    destruct (Ascii.eqb c' ",") eqn:E1.
    { char_eq E1.
      destruct (parseMembers fuel r4) as [[ms' rest']|] eqn:Em; [|discriminate H].
      injection H as _ <-. exact (IHm _ _ _ d Em). }
    destruct (Ascii.eqb c' "}") eqn:E2; [|discriminate H].
    char_eq E2. injection H as _ <-. reflexivity.
Qed.

Lemma parse_wellNested (s : string) (v : value) :
  parse s = Some v -> wellNested s.
Proof.
  unfold parse, wellNested.
  destruct (parseValue (2 * String.length s + 2) s) as [[v' rest]|] eqn:E;
    [|discriminate].
  destruct (skipSpace rest) eqn:Er; [|discriminate]. intros _.
  rewrite (proj1 (parse_scan _) _ _ _ 0%Z E), <- skipSpace_scan, Er.
  reflexivity.
Qed.

(** The reference decoder accepts well-nested texts only. *)
Lemma Unmarshal_wellNested (data : string) (v : option (list GitCommitFormat)) :
  Unmarshal data = (v, None) -> wellNested data.
Proof.
  unfold Unmarshal.
  destruct (parse data) as [j|] eqn:E; [|discriminate].
  intros _. exact (parse_wellNested data j E).
Qed.

End JsonFacts.

(** ** The repair step *)

(** C8.  The decoder drops the last character of a non-empty output whatever
    it is, and hands the rest, between brackets, to [json.Unmarshal].  So an
    output [s ++ c] decodes whenever [[s]] parses, for any character [c];
    and, [json.Unmarshal] accepting well-nested texts only, a fragment that
    would parse between brackets fails to decode when it is the whole
    output: its closing brace is what gets dropped. *)
Theorem processGitLogOutput_drops_last_character :
  forall (env : Env) (rootDir : string),
    (forall out : string,
        out <> "" ->
        exists (s : string) (c : ascii),
          out = s ++ String c "" /\ repaired out = "[" ++ s ++ "]")
    /\ (forall (s : string) (c : ascii),
        processGitLogOutput env (s ++ String c "") rootDir =
        match json_Unmarshal env ("[" ++ s ++ "]") with
        | (_, Some e) => (None, Some e)
        | (l, None) => (Some (map (commitOfFragment rootDir) (elems l)), None)
        end)
    /\ (forall (s : string) (c : ascii) (frags : option (list GitCommitFormat)),
           json_Unmarshal env ("[" ++ s ++ "]") = (frags, None) ->
           processGitLogOutput env (s ++ String c "") rootDir
           = (Some (map (commitOfFragment rootDir) (elems frags)), None))
    /\ ((forall data v, json_Unmarshal env data = (v, None) -> wellNested data) ->
        forall (f : string) (frags : option (list GitCommitFormat)),
          json_Unmarshal env ("[" ++ (f ++ "}") ++ "]") = (frags, None) ->
          json_Unmarshal env (repaired (f ++ "}")) = json_Unmarshal env ("[" ++ f ++ "]")
          /\ exists e : error,
              processGitLogOutput env (f ++ "}") rootDir = (None, Some e)).
Proof.
  intros env rootDir.
  assert (Hsnoc : forall s c,
             processGitLogOutput env (s ++ String c "") rootDir =
             match json_Unmarshal env ("[" ++ s ++ "]") with
             | (_, Some e) => (None, Some e)
             | (l, None) => (Some (map (commitOfFragment rootDir) (elems l)), None)
             end).
  { intros s c. rewrite processGitLogOutput_nonempty.
    - now rewrite repaired_snoc.
    - destruct s; discriminate. }
  split.
  { intros out Hne. destruct (string_snoc_inv out Hne) as (s & c & ->).
    exists s, c. split; [reflexivity | apply repaired_snoc]. }
  split; [exact Hsnoc|]. split.
  - intros s c frags H. now rewrite Hsnoc, H.
  - intros Hlaw f frags Hwhole. split; [now rewrite repaired_snoc|].
    change (f ++ "}") with (f ++ String "}" ""). rewrite Hsnoc.
    destruct (json_Unmarshal env ("[" ++ f ++ "]")) as [l [e|]] eqn:E;
      [now exists e|].
    exfalso. apply Hlaw in Hwhole. apply Hlaw in E.
    apply (wellNested_without_closing_brace ("[" ++ f)).
    + rewrite append_assoc in Hwhole. exact Hwhole.
    + exact E.
Qed.

(** The fragment [fragmentA] followed by an [x] decodes to its commit; on
    its own it does not decode. *)
Lemma processGitLogOutput_drops_last_character_witness :
  (exists (s : string) (c : ascii),
      Example.logOutput = s ++ String c ""
      /\ repaired Example.logOutput = "[" ++ s ++ "]")
  /\ processGitLogOutput Example.env (Example.fragmentA ++ "x") "/repo"
     = (Some [Example.commitA], None)
  /\ exists e : error,
      processGitLogOutput Example.env Example.fragmentA "/repo" = (None, Some e).
Proof.
  split; [|split].
  - apply (proj1 (processGitLogOutput_drops_last_character Example.env "/repo")
             Example.logOutput).
    vm_compute; discriminate.
  - apply (proj1 (proj2 (proj2 (processGitLogOutput_drops_last_character
                                  Example.env "/repo")))
             Example.fragmentA "x"%char (Some [Example.parsedA])).
    vm_compute; reflexivity.
  - apply (proj2 (proj2 (proj2 (proj2 (processGitLogOutput_drops_last_character
                                  Example.env "/repo")))
             JsonFacts.Unmarshal_wellNested
             Example.fragmentAOpen (Some [Example.parsedA])
             ltac:(vm_compute; reflexivity))).
Defined.

(** ** The end-to-end scenario of the range query *)

(** An iterator request from commit [A] with no upper bound on [main] runs
    [git log] over the range [A^..main], and the iterator holds the decoded
    batch. *)
Example GetCommitIterator_from_only :
  run (GetCommitIterator Example.env Example.GITFORMAT Example.ctx
         (mkGitRepository "/repo") (mkIteratorRequest "main" "" 15 "A" ""))
  = (Some (mkCommitCliIterator
             (Some [Example.commitA; commitOfFragment "/repo" Example.parsedB])),
     None,
     [EvRun (CommandContext (ContextId 0) "git"
               ["-C"; "/repo"; "log"; "A^..main"; "-n"; "15";
                "--date=iso-strict"; Example.GITFORMAT])]).
Proof. vm_compute. reflexivity. Qed.

(* ================================================================= *)
(** * Further properties of the file *)

(** ** The decoder *)

Lemma allCheckedOutAt_map (rootDir : string) (l : list GitCommitFormat) :
  allCheckedOutAt rootDir (map (commitOfFragment rootDir) l).
Proof.
  unfold allCheckedOutAt. apply Forall_forall. intros c Hc.
  apply in_map_iff in Hc. destruct Hc as (f & <- & _). reflexivity.
Qed.

(** X1.  The decoder returns either a list that is not nil, with the nil
    error, or the nil list with an error; and every commit of a returned
    list has the [rootDir] argument as its checkout path.  The list is not
    nil even when [json.Unmarshal] leaves a nil slice behind. *)
Theorem processGitLogOutput_list_or_error :
  forall (env : Env) (out rootDir : string),
    (exists cs : list GitCommit,
        processGitLogOutput env out rootDir = (Some cs, None)
        /\ allCheckedOutAt rootDir cs)
    \/ (exists e : error, processGitLogOutput env out rootDir = (None, Some e)).
Proof.
  intros env out rootDir. destruct out as [|a out'].
  - left. exists []. split; [reflexivity | constructor].
  - rewrite processGitLogOutput_nonempty by discriminate.
    destruct (json_Unmarshal env (repaired (String a out'))) as [l [e|]].
    + right. now exists e.
    + left. eexists. split; [reflexivity | apply allCheckedOutAt_map].
Qed.

(** X2.  An output of one character, whatever the character, is decoded as
    the text [[]]: when [json.Unmarshal] reads that as the empty array, the
    decoder returns the empty list and no error. *)
Theorem processGitLogOutput_single_character :
  forall (env : Env) (c : ascii) (rootDir : string),
    json_Unmarshal env "[]" = (Some [], None) ->
    processGitLogOutput env (String c "") rootDir = (Some [], None).
Proof.
  intros env c rootDir H.
  rewrite processGitLogOutput_nonempty by discriminate.
  change (repaired (String c "")) with "[]". now rewrite H.
Qed.

Lemma processGitLogOutput_single_character_witness :
  processGitLogOutput Example.env "," "/repo" = (Some [], None)
  /\ processGitLogOutput Example.env "}" "/repo" = (Some [], None).
Proof.
  split.
  - apply (processGitLogOutput_single_character Example.env ","%char "/repo").
    vm_compute; reflexivity.
  - apply (processGitLogOutput_single_character Example.env "}"%char "/repo").
    vm_compute; reflexivity.
Defined.

(** ** The history query *)

Lemma GetCommits_run (env : Env) (G : string) (gitContext : GitContext)
    (branchRef branch rootDir : string) (numCommits : Z) (from to : string) :
  run (GetCommits env G gitContext branchRef branch rootDir numCommits from to) =
  (match runCommand env
           (logCmd G gitContext branchRef rootDir numCommits from to) with
   | (_, _, Some e) => (None, Some e)
   | (output, _, None) =>
       match processGitLogOutput env output rootDir with
       | (_, Some e) => (None, Some e)
       | (cs, None) => (cs, None)
       end
   end,
   [EvRun (logCmd G gitContext branchRef rootDir numCommits from to)]).
Proof.
  unfold GetCommits. rewrite getCommandForLogRange_resolve.
  replace (if nonEmpty from || nonEmpty to
           then [resolveRange branchRef from to] else [branchRef])
    with [resolveRange branchRef from to]
    by (destruct from, to; reflexivity).
  change (CommandContext (gcContext gitContext) "git" _)
    with (logCmd G gitContext branchRef rootDir numCommits from to).
  unfold_M.
  destruct (runCommand env (logCmd G gitContext branchRef rootDir numCommits from to))
    as [[output errMsg] [e|]]; [reflexivity|].
  destruct (processGitLogOutput env output rootDir) as [cs [e|]]; reflexivity.
Qed.

(** X3.  When the process of the history query fails, [GetCommits] returns
    the nil list and the error of the process; what the process printed is
    not decoded, whatever [json.Unmarshal] would make of it. *)
Theorem GetCommits_process_error :
  forall (env : Env) (G : string) (gitContext : GitContext)
         (branchRef branch rootDir : string) (numCommits : Z) (from to : string)
         (output errMsg : string) (e : error),
    runCommand env (logCmd G gitContext branchRef rootDir numCommits from to)
    = (output, errMsg, Some e) ->
    result (GetCommits env G gitContext branchRef branch rootDir numCommits from to)
    = (None, Some e).
Proof.
  intros env G gitContext branchRef branch rootDir numCommits from to
         output errMsg e Hrun.
  unfold result. rewrite GetCommits_run, Hrun. reflexivity.
Qed.

(** The query prints two well-formed fragments and is killed. *)
Lemma GetCommits_process_error_witness :
  processGitLogOutput Example.env Example.logOutput "/repo"
  = (Some [Example.commitA; commitOfFragment "/repo" Example.parsedB], None)
  /\ result (GetCommits
               (Scenario.envWith (Scenario.killed Example.logOutput) Example.exAbs)
               Example.GITFORMAT Example.ctx "main" "" "/repo" 15 "" "")
     = (None, Some (ExitError "signal: killed")).
Proof.
  split; [vm_compute; reflexivity|].
  apply (GetCommits_process_error
           (Scenario.envWith (Scenario.killed Example.logOutput) Example.exAbs)
           Example.GITFORMAT Example.ctx "main" "" "/repo" 15 "" ""
           Example.logOutput "").
  vm_compute; reflexivity.
Defined.

(** X4.  When the process of the history query succeeds, [GetCommits]
    returns what the decoder makes of its output: the empty list for the
    empty output, without consulting [json.Unmarshal]; the commits of the
    fragments, in their order, when the repaired output parses; the nil list
    and the parse error when it does not. *)
Theorem GetCommits_decodes_output :
  forall (env : Env) (G : string) (gitContext : GitContext)
         (branchRef branch rootDir : string) (numCommits : Z) (from to : string)
         (output errMsg : string),
    runCommand env (logCmd G gitContext branchRef rootDir numCommits from to)
    = (output, errMsg, None) ->
    (output = "" ->
     result (GetCommits env G gitContext branchRef branch rootDir numCommits from to)
     = (Some [], None))
    /\ (forall frags : option (list GitCommitFormat),
           output <> "" ->
           json_Unmarshal env (repaired output) = (frags, None) ->
           result (GetCommits env G gitContext branchRef branch rootDir
                     numCommits from to)
           = (Some (map (commitOfFragment rootDir) (elems frags)), None))
    /\ (forall e : error,
           output <> "" ->
           snd (json_Unmarshal env (repaired output)) = Some e ->
           result (GetCommits env G gitContext branchRef branch rootDir
                     numCommits from to)
           = (None, Some e)).
Proof.
  intros env G gitContext branchRef branch rootDir numCommits from to
         output errMsg Hrun.
  unfold result. rewrite GetCommits_run, Hrun. cbn [fst].
  split; [|split].
  - intros ->. reflexivity.
  - intros frags Hne Hparse.
    now rewrite (processGitLogOutput_nonempty env output rootDir Hne), Hparse.
  - intros e Hne Hparse.
    rewrite (processGitLogOutput_nonempty env output rootDir Hne).
    destruct (json_Unmarshal env (repaired output)) as [l err].
    simpl in Hparse. now subst err.
Qed.

(** A history of no commit, of two commits, and one with a number for a
    hash. *)
Lemma GetCommits_decodes_output_witness :
  result (GetCommits (Scenario.envWith (Scenario.printing "") Example.exAbs)
            Example.GITFORMAT Example.ctx "main" "" "/repo" 15 "" "")
  = (Some [], None)
  /\ result (GetCommits Example.env Example.GITFORMAT Example.ctx
               "main" "" "/repo" 15 "" "")
     = (Some [Example.commitA; commitOfFragment "/repo" Example.parsedB], None)
  /\ result (GetCommits
               (Scenario.envWith (Scenario.printing Example.mistyped) Example.exAbs)
               Example.GITFORMAT Example.ctx "main" "" "/repo" 15 "" "")
     = (None, Some (UnmarshalTypeError "number" "commit")).
Proof.
  split; [|split].
  - apply (proj1 (GetCommits_decodes_output
                    (Scenario.envWith (Scenario.printing "") Example.exAbs)
                    Example.GITFORMAT Example.ctx "main" "" "/repo" 15 "" ""
                    "" "" eq_refl)).
    reflexivity.
  - apply (proj1 (proj2 (GetCommits_decodes_output
                    Example.env Example.GITFORMAT Example.ctx
                    "main" "" "/repo" 15 "" "" Example.logOutput "" eq_refl))
             (Some [Example.parsedA; Example.parsedB])).
    + vm_compute; discriminate.
    + vm_compute; reflexivity.
  - apply (proj2 (proj2 (GetCommits_decodes_output
                    (Scenario.envWith (Scenario.printing Example.mistyped)
                                      Example.exAbs)
                    Example.GITFORMAT Example.ctx "main" "" "/repo" 15 "" ""
                    Example.mistyped "" eq_refl))).
    + vm_compute; discriminate.
    + vm_compute; reflexivity.
Defined.

(** X5.  [GetCommits] returns either a list that is not nil, all of whose
    commits have [rootDir] as checkout path, with the nil error, or the nil
    list with an error: never commits alongside an error, never neither. *)
Theorem GetCommits_list_or_error :
  forall (env : Env) (G : string) (gitContext : GitContext)
         (branchRef branch rootDir : string) (numCommits : Z) (from to : string),
    (exists cs : list GitCommit,
        result (GetCommits env G gitContext branchRef branch rootDir
                  numCommits from to) = (Some cs, None)
        /\ allCheckedOutAt rootDir cs)
    \/ (exists e : error,
           result (GetCommits env G gitContext branchRef branch rootDir
                     numCommits from to) = (None, Some e)).
Proof.
  intros env G gitContext branchRef branch rootDir numCommits from to.
  unfold result. rewrite GetCommits_run. cbn [fst].
  destruct (runCommand env (logCmd G gitContext branchRef rootDir numCommits from to))
    as [[output errMsg] [e|]].
  - right. now exists e.
  - destruct output as [|a output'].
    + left. exists []. split; [reflexivity | constructor].
    + rewrite processGitLogOutput_nonempty by discriminate.
      destruct (json_Unmarshal env (repaired (String a output'))) as [l [e|]].
      * right. now exists e.
      * left. eexists. split; [reflexivity | apply allCheckedOutAt_map].
Qed.

(** ** The show query *)

(** X6.  [GitShow] does not report a failure of its process: when the show
    query fails and has printed nothing, the result is the nil commit and
    the nil error; and an error that [GitShow] does return is the one
    [json.Unmarshal] gave on the repaired output, never the error of the
    process. *)
Theorem GitShow_ignores_process_error :
  forall (env : Env) (G : string) (gitContext : GitContext)
         (rootDir hash output errMsg : string) (perr : option error),
    runCommand env (showCmd G gitContext rootDir hash) = (output, errMsg, perr) ->
    (output = "" ->
     result (GitShow env G gitContext rootDir hash) = (None, None))
    /\ (forall e : error,
           snd (result (GitShow env G gitContext rootDir hash)) = Some e ->
           output <> ""
           /\ snd (json_Unmarshal env (repaired output)) = Some e
           /\ fst (result (GitShow env G gitContext rootDir hash)) = None).
Proof.
  intros env G gitContext rootDir hash output errMsg perr Hrun.
  unfold result. rewrite GitShow_run, Hrun. cbn [fst snd]. split.
  - intros ->. reflexivity.
  - intros e. destruct output as [|a output']; [discriminate|].
    rewrite processGitLogOutput_nonempty by discriminate.
    destruct (json_Unmarshal env (repaired (String a output'))) as [l [e'|]];
      cbn [fst snd isErr orb].
    + intros [= ->]. repeat split. discriminate.
    + destruct (Nat.eqb _ 0); discriminate.
Qed.

(** A show query that fails on a bad revision and prints nothing, and one
    whose output has a number for a hash. *)
Lemma GitShow_ignores_process_error_witness :
  result (GitShow (Scenario.envWith (Scenario.killed "") Example.exAbs)
            Example.GITFORMAT Example.ctx "/repo" "no-such-ref")
  = (None, None)
  /\ result (GitShow
               (Scenario.envWith (Scenario.printing Example.mistyped) Example.exAbs)
               Example.GITFORMAT Example.ctx "/repo" "v1")
     = (None, Some (UnmarshalTypeError "number" "commit")).
Proof.
  split.
  - apply (proj1 (GitShow_ignores_process_error
                    (Scenario.envWith (Scenario.killed "") Example.exAbs)
                    Example.GITFORMAT Example.ctx "/repo" "no-such-ref"
                    "" "" (Some (ExitError "signal: killed")) eq_refl)).
    reflexivity.
  - assert (H : snd (result (GitShow
               (Scenario.envWith (Scenario.printing Example.mistyped) Example.exAbs)
               Example.GITFORMAT Example.ctx "/repo" "v1"))
             = Some (UnmarshalTypeError "number" "commit"))
      by (vm_compute; reflexivity).
    destruct (proj2 (GitShow_ignores_process_error
                (Scenario.envWith (Scenario.printing Example.mistyped) Example.exAbs)
                Example.GITFORMAT Example.ctx "/repo" "v1"
                Example.mistyped "" None eq_refl) _ H) as (_ & _ & Hfst).
    destruct (result (GitShow _ _ _ _ _)) as [c err].
    cbn [fst snd] in *. now subst.
Defined.

(** X7.  When the repaired output of the show query parses to at least one
    fragment, [GitShow] returns the commit of the first fragment, with
    [rootDir] as its checkout path, and the nil error: also when the process
    of the query reported a failure. *)
Theorem GitShow_first_fragment :
  forall (env : Env) (G : string) (gitContext : GitContext)
         (rootDir hash output errMsg : string) (perr : option error)
         (frags : option (list GitCommitFormat))
         (f : GitCommitFormat) (others : list GitCommitFormat),
    runCommand env (showCmd G gitContext rootDir hash) = (output, errMsg, perr) ->
    output <> "" ->
    json_Unmarshal env (repaired output) = (frags, None) ->
    elems frags = f :: others ->
    result (GitShow env G gitContext rootDir hash)
    = (Some (commitOfFragment rootDir f), None).
Proof.
  intros env G gitContext rootDir hash output errMsg perr frags f others
         Hrun Hne Hparse Hfrags.
  unfold result. rewrite GitShow_run, Hrun. cbn [fst snd].
  rewrite (processGitLogOutput_nonempty env output rootDir Hne), Hparse, Hfrags.
  reflexivity.
Qed.

(** The show query prints the fragment of a commit and is killed. *)
Lemma GitShow_first_fragment_witness :
  result (GitShow
            (Scenario.envWith (Scenario.killed (Example.fragmentA ++ ","))
                              Example.exAbs)
            Example.GITFORMAT Example.ctx "/repo" "a1b2c3")
  = (Some Example.commitA, None).
Proof.
  apply (GitShow_first_fragment
           (Scenario.envWith (Scenario.killed (Example.fragmentA ++ ","))
                             Example.exAbs)
           Example.GITFORMAT Example.ctx "/repo" "a1b2c3"
           (Example.fragmentA ++ ",") "" (Some (ExitError "signal: killed"))
           (Some [Example.parsedA]) Example.parsedA []).
  - vm_compute; reflexivity.
  - vm_compute; discriminate.
  - vm_compute; reflexivity.
  - reflexivity.
Defined.

(** X8.  [GitShow] never returns a commit alongside an error; a commit it
    returns has [rootDir] as its checkout path; and on every path it has run
    the one command [git -C rootDir show hash --date=iso-strict GITFORMAT -s]
    and nothing else. *)
Theorem GitShow_commit_or_not :
  forall (env : Env) (G : string) (gitContext : GitContext) (rootDir hash : string),
    ((exists c : GitCommit,
         result (GitShow env G gitContext rootDir hash) = (Some c, None)
         /\ CheckoutPath (GetCommit c) = rootDir)
     \/ (exists err : option error,
            result (GitShow env G gitContext rootDir hash) = (None, err)))
    /\ trace (GitShow env G gitContext rootDir hash)
       = [EvRun (CommandContext (gcContext gitContext) "git"
                   ["-C"; rootDir; "show"; hash; "--date=iso-strict"; G; "-s"])].
Proof.
  intros env G gitContext rootDir hash.
  unfold result, trace. rewrite GitShow_run. cbn [fst snd].
  split; [|reflexivity].
  destruct (runCommand env (showCmd G gitContext rootDir hash))
    as [[output errMsg] perr]. cbn [fst].
  destruct output as [|a output'].
  - right. now exists None.
  - rewrite processGitLogOutput_nonempty by discriminate.
    destruct (json_Unmarshal env (repaired (String a output'))) as [l [e|]];
      cbn [fst snd isErr orb].
    + right. now eexists.
    + destruct (elems l) as [|f others]; cbn.
      * right. now eexists.
      * left. eexists. split; reflexivity.
Qed.

(** ** Opening a checkout, continued *)

Lemma OpenRepoPlain_run (env : Env) (checkoutPath : string) :
  run (OpenRepoPlain env checkoutPath) =
  match snd (filepath_Abs env checkoutPath) with
  | Some e => ((None, Some e), [EvAbs checkoutPath])
  | None =>
      (match osfs_Stat env checkoutPath ".git" with
       | Some e =>
           if IsNotExist (Some e)
           then (Some (mkGitRepository checkoutPath), None)
           else (None, Some e)
       | None => (Some (mkGitRepository checkoutPath), None)
       end,
       [EvAbs checkoutPath; EvStat checkoutPath ".git"])
  end.
Proof.
  unfold OpenRepoPlain, openGitRepo. unfold_M.
  destruct (filepath_Abs env checkoutPath) as [p [e|]]; cbn [snd]; [reflexivity|].
  destruct (osfs_Stat env checkoutPath ".git") as [e|]; [|reflexivity].
  destruct (IsNotExist (Some e)); reflexivity.
Qed.

(** X9.  When [filepath.Abs] fails on [checkoutPath], [OpenRepoPlain]
    returns no handle and that error, and the [.git] entry is never
    probed. *)
Theorem OpenRepoPlain_unresolved_path :
  forall (env : Env) (checkoutPath : string) (e : error),
    snd (filepath_Abs env checkoutPath) = Some e ->
    run (OpenRepoPlain env checkoutPath) = ((None, Some e), [EvAbs checkoutPath]).
Proof.
  intros env checkoutPath e H. now rewrite OpenRepoPlain_run, H.
Qed.

(** A relative path when the working directory cannot be read. *)
Lemma OpenRepoPlain_unresolved_path_witness :
  run (OpenRepoPlain (Scenario.envWith Example.exRunCommand Scenario.absNoCwd)
         "checkouts/repo")
  = ((None, Some (OtherError "getwd: no such file or directory")),
     [EvAbs "checkouts/repo"]).
Proof.
  apply (OpenRepoPlain_unresolved_path
           (Scenario.envWith Example.exRunCommand Scenario.absNoCwd)
           "checkouts/repo").
  vm_compute; reflexivity.
Defined.

(** X10.  [OpenRepoPlain] returns either a handle whose [rootDir] is
    [checkoutPath], with the nil error, or no handle with an error, and that
    error is never one of which [os.IsNotExist] holds unless [filepath.Abs]
    gave it.  It probes [filepath.Abs], then at most the [.git] entry of
    [checkoutPath], and runs no command. *)
Theorem OpenRepoPlain_handle_or_error :
  forall (env : Env) (checkoutPath : string),
    (result (OpenRepoPlain env checkoutPath)
     = (Some (mkGitRepository checkoutPath), None)
     \/ exists e : error,
         result (OpenRepoPlain env checkoutPath) = (None, Some e)
         /\ (snd (filepath_Abs env checkoutPath) = Some e
             \/ (osfs_Stat env checkoutPath ".git" = Some e
                 /\ IsNotExist (Some e) = false)))
    /\ (trace (OpenRepoPlain env checkoutPath) = [EvAbs checkoutPath]
        \/ trace (OpenRepoPlain env checkoutPath)
           = [EvAbs checkoutPath; EvStat checkoutPath ".git"]).
Proof.
  intros env checkoutPath. unfold result, trace. rewrite OpenRepoPlain_run.
  destruct (snd (filepath_Abs env checkoutPath)) as [e|]; cbn [fst snd].
  - split; [right; exists e; auto | auto].
  - split; [|auto].
    destruct (osfs_Stat env checkoutPath ".git") as [e|]; [|auto].
    destruct (IsNotExist (Some e)) eqn:E; [auto|].
    right. exists e. auto.
Qed.

(** ** The iterator *)

Lemma GetCommitIterator_run (env : Env) (G : string) (gitContext : GitContext)
    (repository : GitRepository) (req : IteratorRequest) :
  run (GetCommitIterator env G gitContext repository req) =
  (match runCommand env
           (logCmd G gitContext (BranchRef req) (rootDir repository)
                   (CommitCount req) (FromCommitHash req) (ToCommitHash req)) with
   | (_, _, Some e) => (None, Some e)
   | (output, _, None) =>
       match processGitLogOutput env output (rootDir repository) with
       | (_, Some e) => (None, Some e)
       | (cs, None) => (Some (mkCommitCliIterator cs), None)
       end
   end,
   [EvRun (logCmd G gitContext (BranchRef req) (rootDir repository)
                  (CommitCount req) (FromCommitHash req) (ToCommitHash req))]).
Proof.
  unfold GetCommitIterator, bind.
  pose proof (GetCommits_run env G gitContext (BranchRef req) (Branch req)
                (rootDir repository) (CommitCount req)
                (FromCommitHash req) (ToCommitHash req)) as H.
  unfold run in *. rewrite H.
  destruct (runCommand env _) as [[output errMsg] [e|]]; [reflexivity|].
  destruct (processGitLogOutput env output (rootDir repository)) as [cs [e|]];
    reflexivity.
Qed.

(** X11.  [GetCommitIterator] runs one history query, over the range that
    [BranchRef], [FromCommitHash] and [ToCommitHash] resolve to, capped at
    [CommitCount], in the [rootDir] of the repository; the [Branch] of the
    request plays no part.  It returns either an iterator over a list that
    is not nil, all of whose commits have that [rootDir] as checkout path,
    with the nil error, or no iterator with an error. *)
Theorem GetCommitIterator_iterator_or_error :
  forall (env : Env) (G : string) (gitContext : GitContext)
         (repository : GitRepository) (req : IteratorRequest),
    trace (GetCommitIterator env G gitContext repository req)
    = [EvRun (CommandContext (gcContext gitContext) "git"
                ["-C"; rootDir repository; "log";
                 resolveRange (BranchRef req) (FromCommitHash req) (ToCommitHash req);
                 "-n"; Itoa (CommitCount req); "--date=iso-strict"; G])]
    /\ ((exists cs : list GitCommit,
            result (GetCommitIterator env G gitContext repository req)
            = (Some (mkCommitCliIterator (Some cs)), None)
            /\ allCheckedOutAt (rootDir repository) cs)
        \/ (exists e : error,
               result (GetCommitIterator env G gitContext repository req)
               = (None, Some e))).
Proof.
  intros env G gitContext repository req.
  unfold result, trace. rewrite GetCommitIterator_run. cbn [fst snd].
  split; [reflexivity|].
  destruct (runCommand env _) as [[output errMsg] [e|]].
  - right. now exists e.
  - destruct output as [|a output'].
    + left. exists []. split; [reflexivity | constructor].
    + rewrite processGitLogOutput_nonempty by discriminate.
      destruct (json_Unmarshal env (repaired (String a output'))) as [l [e|]].
      * right. now exists e.
      * left. eexists. split; [reflexivity | apply allCheckedOutAt_map].
Qed.

(** X12.  The iterator holds the decoded batch as it is: when the process of
    the query succeeds and its repaired output parses, the commits of the
    iterator are those of the fragments, in their order; when the process
    fails there is no iterator, whatever it printed. *)
Theorem GetCommitIterator_holds_batch :
  forall (env : Env) (G : string) (gitContext : GitContext)
         (repository : GitRepository) (req : IteratorRequest)
         (output errMsg : string) (perr : option error),
    runCommand env
      (logCmd G gitContext (BranchRef req) (rootDir repository)
              (CommitCount req) (FromCommitHash req) (ToCommitHash req))
    = (output, errMsg, perr) ->
    (forall frags : option (list GitCommitFormat),
        perr = None ->
        output <> "" ->
        json_Unmarshal env (repaired output) = (frags, None) ->
        result (GetCommitIterator env G gitContext repository req)
        = (Some (mkCommitCliIterator
                   (Some (map (commitOfFragment (rootDir repository))
                              (elems frags)))), None))
    /\ (forall e : error,
           perr = Some e ->
           result (GetCommitIterator env G gitContext repository req)
           = (None, Some e)).
Proof.
  intros env G gitContext repository req output errMsg perr Hrun.
  unfold result. rewrite GetCommitIterator_run, Hrun. cbn [fst]. split.
  - intros frags -> Hne Hparse.
    now rewrite (processGitLogOutput_nonempty env output _ Hne), Hparse.
  - intros e ->. reflexivity.
Qed.

(** The history of two commits, and the same history from a query that is
    killed. *)
Lemma GetCommitIterator_holds_batch_witness :
  result (GetCommitIterator Example.env Example.GITFORMAT Example.ctx
            (mkGitRepository "/repo") (mkIteratorRequest "main" "dev" 15 "A" ""))
  = (Some (mkCommitCliIterator
             (Some [Example.commitA; commitOfFragment "/repo" Example.parsedB])),
     None)
  /\ result (GetCommitIterator
               (Scenario.envWith (Scenario.killed Example.logOutput) Example.exAbs)
               Example.GITFORMAT Example.ctx
               (mkGitRepository "/repo") (mkIteratorRequest "main" "dev" 15 "A" ""))
     = (None, Some (ExitError "signal: killed")).
Proof.
  split.
  - apply (proj1 (GetCommitIterator_holds_batch
                    Example.env Example.GITFORMAT Example.ctx
                    (mkGitRepository "/repo")
                    (mkIteratorRequest "main" "dev" 15 "A" "")
                    Example.logOutput "" None eq_refl)
             (Some [Example.parsedA; Example.parsedB])).
    + reflexivity.
    + vm_compute; discriminate.
    + vm_compute; reflexivity.
  - apply (proj2 (GetCommitIterator_holds_batch
                    (Scenario.envWith (Scenario.killed Example.logOutput)
                                      Example.exAbs)
                    Example.GITFORMAT Example.ctx
                    (mkGitRepository "/repo")
                    (mkIteratorRequest "main" "dev" 15 "A" "")
                    Example.logOutput "" (Some (ExitError "signal: killed"))
                    eq_refl)).
    reflexivity.
Defined.

(** ** Setting up a checkout *)

(** The three steps of [Init], in their order. *)
Lemma Init_run (env : Env) (mk : string -> Z -> option error)
    (gitContext : GitContext) (rootDir remoteUrl : string) (isBare : bool) :
  runI (Init env mk gitContext rootDir remoteUrl isBare) =
  match mk rootDir perm0755 with
  | Some e => (Some e, [IoMkdirAll rootDir perm0755])
  | None =>
      match snd (runCommand env (initCmd gitContext rootDir)) with
      | Some e =>
          (Some e, [IoMkdirAll rootDir perm0755;
                    IoGit (EvRun (initCmd gitContext rootDir))])
      | None =>
          (snd (runCommand env (remoteAddCmd gitContext rootDir remoteUrl)),
           [IoMkdirAll rootDir perm0755;
            IoGit (EvRun (initCmd gitContext rootDir));
            IoGit (EvRun (remoteAddCmd gitContext rootDir remoteUrl))])
      end
  end.
Proof.
  unfold runI, Init, bindI, retI, doMkdirAll, liftGit, GitInit, GitCreateRemote.
  fold (initCmd gitContext rootDir).
  fold (remoteAddCmd gitContext rootDir remoteUrl).
  destruct (mk rootDir perm0755) as [e|]; [reflexivity|].
  unfold_M.
  destruct (runCommand env (initCmd gitContext rootDir)) as [[o1 m1] [e1|]];
    cbn [snd]; [reflexivity|].
  destruct (runCommand env (remoteAddCmd gitContext rootDir remoteUrl))
    as [[o2 m2] e2]; reflexivity.
Qed.

(** X13.  [Init] stops at the first step that fails and returns its error:
    when [os.MkdirAll] fails no command is run; when [git init] fails the
    remote is not added. *)
Theorem Init_stops_at_first_failure :
  forall (env : Env) (mk : string -> Z -> option error)
         (gitContext : GitContext) (rootDir remoteUrl : string) (isBare : bool)
         (e : error),
    (mk rootDir perm0755 = Some e ->
     runI (Init env mk gitContext rootDir remoteUrl isBare)
     = (Some e, [IoMkdirAll rootDir perm0755]))
    /\ (mk rootDir perm0755 = None ->
        snd (runCommand env (initCmd gitContext rootDir)) = Some e ->
        runI (Init env mk gitContext rootDir remoteUrl isBare)
        = (Some e, [IoMkdirAll rootDir perm0755;
                    IoGit (EvRun (CommandContext (gcContext gitContext) "git"
                                    ["-C"; rootDir; "init"]))])).
Proof.
  intros env mk gitContext rootDir remoteUrl isBare e. rewrite Init_run. split.
  - intros ->. reflexivity.
  - intros -> ->. reflexivity.
Qed.

(** A directory that cannot be made, and a [git] that is killed. *)
Lemma Init_stops_at_first_failure_witness :
  runI (Init Example.env Scenario.mkdirAll Example.ctx
          "/readonly/repo" "https://example.org/r.git" false)
  = (Some (PathError "mkdir" "/readonly/repo" false),
     [IoMkdirAll "/readonly/repo" 493])
  /\ runI (Init (Scenario.envWith (Scenario.killed "") Example.exAbs)
             Scenario.mkdirAll Example.ctx
             "/work/repo" "https://example.org/r.git" false)
     = (Some (ExitError "signal: killed"),
        [IoMkdirAll "/work/repo" 493;
         IoGit (EvRun (CommandContext (ContextId 0) "git"
                         ["-C"; "/work/repo"; "init"]))]).
Proof.
  split.
  - apply (proj1 (Init_stops_at_first_failure
                    Example.env Scenario.mkdirAll Example.ctx
                    "/readonly/repo" "https://example.org/r.git" false
                    (PathError "mkdir" "/readonly/repo" false))).
    vm_compute; reflexivity.
  - apply (proj2 (Init_stops_at_first_failure
                    (Scenario.envWith (Scenario.killed "") Example.exAbs)
                    Scenario.mkdirAll Example.ctx
                    "/work/repo" "https://example.org/r.git" false
                    (ExitError "signal: killed"))).
    + vm_compute; reflexivity.
    + vm_compute; reflexivity.
Defined.

(** X14.  When the directory is made and [git init] succeeds, [Init] adds
    the remote under the name [origin] and returns whatever error that
    command gave, with nothing undone; the steps were, in this order,
    [MkdirAll rootDir 0755], [git -C rootDir init],
    [git -C rootDir remote add origin remoteUrl]; [isBare] plays no part. *)
Theorem Init_adds_remote_last :
  forall (env : Env) (mk : string -> Z -> option error)
         (gitContext : GitContext) (rootDir remoteUrl : string) (isBare : bool),
    mk rootDir perm0755 = None ->
    snd (runCommand env (initCmd gitContext rootDir)) = None ->
    runI (Init env mk gitContext rootDir remoteUrl isBare)
    = (snd (runCommand env (remoteAddCmd gitContext rootDir remoteUrl)),
       [IoMkdirAll rootDir 493;
        IoGit (EvRun (CommandContext (gcContext gitContext) "git"
                        ["-C"; rootDir; "init"]));
        IoGit (EvRun (CommandContext (gcContext gitContext) "git"
                        ["-C"; rootDir; "remote"; "add"; "origin"; remoteUrl]))])
    /\ runI (Init env mk gitContext rootDir remoteUrl (negb isBare))
       = runI (Init env mk gitContext rootDir remoteUrl isBare).
Proof.
  intros env mk gitContext rootDir remoteUrl isBare Hmk Hinit.
  rewrite !Init_run, Hmk, Hinit. split; reflexivity.
Qed.

(** A set-up that works, and one whose remote is rejected. *)
Lemma Init_adds_remote_last_witness :
  fst (runI (Init Example.env Scenario.mkdirAll Example.ctx
               "/work/repo" "https://example.org/r.git" true)) = None
  /\ fst (runI (Init (Scenario.envWith Scenario.remoteRejected Example.exAbs)
                  Scenario.mkdirAll Example.ctx
                  "/work/repo" "https://example.org/r.git" true))
     = Some (ExitError "exit status 3").
Proof.
  split.
  - rewrite (proj1 (Init_adds_remote_last
                      Example.env Scenario.mkdirAll Example.ctx
                      "/work/repo" "https://example.org/r.git" true
                      eq_refl eq_refl)).
    reflexivity.
  - rewrite (proj1 (Init_adds_remote_last
                      (Scenario.envWith Scenario.remoteRejected Example.exAbs)
                      Scenario.mkdirAll Example.ctx
                      "/work/repo" "https://example.org/r.git" true
                      eq_refl eq_refl)).
    reflexivity.
Defined.

(** X15.  [Init] returns the nil error only after all three steps have been
    run, and then the directory was made and both commands succeeded. *)
Theorem Init_success_means_all_steps :
  forall (env : Env) (mk : string -> Z -> option error)
         (gitContext : GitContext) (rootDir remoteUrl : string) (isBare : bool),
    fst (runI (Init env mk gitContext rootDir remoteUrl isBare)) = None ->
    List.length (snd (runI (Init env mk gitContext rootDir remoteUrl isBare))) = 3
    /\ mk rootDir perm0755 = None
    /\ snd (runCommand env (initCmd gitContext rootDir)) = None
    /\ snd (runCommand env (remoteAddCmd gitContext rootDir remoteUrl)) = None.
Proof.
  intros env mk gitContext rootDir remoteUrl isBare. rewrite Init_run.
  destruct (mk rootDir perm0755) as [e|]; [discriminate|].
  destruct (snd (runCommand env (initCmd gitContext rootDir))) as [e|];
    [discriminate|].
  cbn [fst snd]. intros H. repeat split. exact H.
Qed.

Lemma Init_success_means_all_steps_witness :
  List.length (snd (runI (Init Example.env Scenario.mkdirAll Example.ctx
                            "/work/repo" "https://example.org/r.git" false))) = 3.
Proof.
  apply (Init_success_means_all_steps
           Example.env Scenario.mkdirAll Example.ctx
           "/work/repo" "https://example.org/r.git" false).
  vm_compute; reflexivity.
Defined.

(** ** The range resolver, continued *)

(** X16.  With an upper bound [to], the arguments of the history query do
    not depend on the branch: neither on [branchRef] nor on the range handed
    in. *)
Theorem getCommandForLogRange_upper_bound_ignores_branch :
  forall (branchRef branchRef' from to : string)
         (rangeCmdArgs rangeCmdArgs' baseCmdArgs extraCmdArgs : list string),
    to <> "" ->
    getCommandForLogRange branchRef from to rangeCmdArgs baseCmdArgs extraCmdArgs
    = getCommandForLogRange branchRef' from to rangeCmdArgs' baseCmdArgs extraCmdArgs.
Proof.
  intros branchRef branchRef' from to rangeCmdArgs rangeCmdArgs'
         baseCmdArgs extraCmdArgs Hto.
  unfold getCommandForLogRange.
  destruct to; [congruence|]. destruct from; reflexivity.
Qed.

Lemma getCommandForLogRange_upper_bound_ignores_branch_witness :
  getCommandForLogRange "main" "A" "B" ["main"] ["-C"; "/repo"; "log"] ["-n"; "5"]
  = getCommandForLogRange "release" "A" "B" ["release"]
      ["-C"; "/repo"; "log"] ["-n"; "5"].
Proof.
  apply (getCommandForLogRange_upper_bound_ignores_branch
           "main" "release" "A" "B" ["main"] ["release"]).
  discriminate.
Defined.

(** X17.  With a lower bound [from], leaving [to] empty is the same as
    giving [branchRef] for it: both queries are over [from^..branchRef]. *)
Theorem getCommandForLogRange_open_range_ends_at_branch :
  forall (branchRef from : string)
         (rangeCmdArgs rangeCmdArgs' baseCmdArgs extraCmdArgs : list string),
    from <> "" ->
    getCommandForLogRange branchRef from "" rangeCmdArgs baseCmdArgs extraCmdArgs
    = getCommandForLogRange branchRef from branchRef rangeCmdArgs'
        baseCmdArgs extraCmdArgs.
Proof.
  intros branchRef from rangeCmdArgs rangeCmdArgs' baseCmdArgs extraCmdArgs Hfrom.
  unfold getCommandForLogRange.
  destruct from; [congruence|]. destruct branchRef; reflexivity.
Qed.

Lemma getCommandForLogRange_open_range_ends_at_branch_witness :
  getCommandForLogRange "main" "A" "" ["main"] ["-C"; "/repo"; "log"] ["-n"; "5"]
  = getCommandForLogRange "main" "A" "main" ["main"]
      ["-C"; "/repo"; "log"] ["-n"; "5"].
Proof.
  apply (getCommandForLogRange_open_range_ends_at_branch
           "main" "A" ["main"] ["main"]).
  discriminate.
Defined.
